(** * FreeWebSearchBot: the message handler of [app.js]

    A shallow embedding of the Messenger webhook bot: configuration
    loading at start-up, the two webhook routes and the signature check,
    [receivedAuthentication], [receivedMessage], the callbacks of the
    search request and of the page fetch, and the senders built on
    [callSendAPI] with its callback.

    JavaScript values are an inductive type, exceptions are an explicit
    abrupt completion, and every console call, Send API call and outgoing
    HTTP request is recorded in a trace, in program order.  A JavaScript
    string is a [string] whose characters stand for its code units. *)

From Stdlib Require Import String Ascii List Bool Arith ZArith Lia DecimalString.
Import ListNotations.
Open Scope string_scope.

Set Implicit Arguments.
Set Warnings "-register-all".

(** ** Text constants *)

Definition LF : string := String (ascii_of_nat 10) EmptyString.
Definition DQUOTE : string := String (ascii_of_nat 34) EmptyString.

(** The separator written ["\n\n"] in the source. *)
Definition BLANK_LINE : string := LF ++ LF.

(** Decimal text of a non-negative integer, as [Number::toString] gives
    for the integer-valued numbers the handler counts with (the index of
    an item and the length of an array, both below [2^32]). *)
Definition decimal (n : nat) : string := NilZero.string_of_uint (Nat.to_uint n).

(** ** Exceptions and completions *)

Inductive exn : Type :=
| Error (message : string)
| TypeError (message : string)
| SyntaxError (message : string).

Definition exn_message (e : exn) : string :=
  match e with
  | Error m => m
  | TypeError m => m
  | SyntaxError m => m
  end.

(** Outcome of evaluating an expression that has no effect but may throw. *)
Inductive completion (A : Type) : Type :=
| Normal (a : A)
| Abrupt (e : exn).
Arguments Normal {A} a.
Arguments Abrupt {A} e.

Definition cbind {A B : Type} (c : completion A) (k : A -> completion B) : completion B :=
  match c with
  | Normal a => k a
  | Abrupt e => Abrupt e
  end.

Declare Scope completion_scope.
Delimit Scope completion_scope with completion.
Notation "x <-? c ;; k" := (cbind c (fun x => k))
  (at level 100, c at next level, right associativity) : completion_scope.

(** ** JavaScript values *)

(** Numbers are the engine's doubles; the handler only converts them to
    text and tests them for truthiness. *)
Class JsNumber : Type := {
  number : Type;
  number_to_string : number -> string;
  (** [false] exactly on [+0], [-0] and [NaN] *)
  number_truthy : number -> bool
}.

Section Values.
Context {JN : JsNumber}.

(** What [JSON.parse] and [body-parser] produce, [undefined] (the result
    of reading a property that is not there) and the built-in functions
    that a property read can reach through a prototype. *)
Inductive value : Type :=
| VUndefined
| VNull
| VBool (b : bool)
| VNum (n : number)
| VStr (s : string)
| VArr (elements : list value)
| VObj (properties : list (string * value))
| VNative (name : string).

(** ToBoolean. *)
Definition truthy (v : value) : bool :=
  match v with
  | VUndefined | VNull => false
  | VBool b => b
  | VNum n => number_truthy n
  | VStr s => negb (String.eqb s "")
  | VArr _ | VObj _ | VNative _ => true
  end.

(** [v != null] is false exactly on [null] and [undefined]. *)
Definition not_loosely_null (v : value) : bool :=
  match v with
  | VUndefined | VNull => false
  | _ => true
  end.

(** Own property of an object built from JSON text. *)
Fixpoint own_property (properties : list (string * value)) (key : string) : option value :=
  match properties with
  | [] => None
  | (k, v) :: rest => if String.eqb k key then Some v else own_property rest key
  end.

(** The property names the program reads from data it did not build.
    None of them is on [Object.prototype], [Array.prototype],
    [Number.prototype] or [Boolean.prototype]; [String.prototype] has the
    legacy method [link]. *)
Inductive data_key : Type := K_items | K_title | K_snippet | K_link | K_payload.

Definition key_name (k : data_key) : string :=
  match k with
  | K_items => "items"
  | K_title => "title"
  | K_snippet => "snippet"
  | K_link => "link"
  | K_payload => "payload"
  end.

(** [v.k]: throws on [null] and [undefined], reads an own property of an
    object, and yields [undefined] where neither the value nor its
    prototype has the property. *)
Definition get_prop (v : value) (k : data_key) : completion value :=
  match v with
  | VUndefined => Abrupt (TypeError ("Cannot read property '" ++ key_name k ++ "' of undefined"))
  | VNull => Abrupt (TypeError ("Cannot read property '" ++ key_name k ++ "' of null"))
  | VObj properties =>
      match own_property properties (key_name k) with
      | Some x => Normal x
      | None => Normal VUndefined
      end
  | VStr _ =>
      match k with
      | K_link => Normal (VNative "link")
      | _ => Normal VUndefined
      end
  | VBool _ | VNum _ | VArr _ | VNative _ => Normal VUndefined
  end.

(** The text a value contributes to a string concatenation
    ([ToPrimitive] then [ToString]).  An object parsed from JSON has the
    inherited [toString] unless it has an own property of that name, which
    is then not callable. *)
Fixpoint to_string (v : value) : completion string :=
  match v with
  | VUndefined => Normal "undefined"
  | VNull => Normal "null"
  | VBool b => Normal (if b then "true" else "false")
  | VNum n => Normal (number_to_string n)
  | VStr s => Normal s
  | VNative name => Normal ("function " ++ name ++ "() { [native code] }")
  | VObj properties =>
      match own_property properties "toString" with
      | Some _ => Abrupt (TypeError "Cannot convert object to primitive value")
      | None => Normal "[object Object]"
      end
  | VArr elements =>
      (fix join (l : list value) : completion string :=
         match l with
         | [] => Normal ""
         | x :: rest =>
             cbind (match x with
                    | VUndefined | VNull => Normal ""
                    | _ => to_string x
                    end)
                   (fun sx =>
                      match rest with
                      | [] => Normal sx
                      | _ :: _ => cbind (join rest) (fun srest => Normal (sx ++ "," ++ srest))
                      end)
         end) elements
  end.

End Values.

(** ** Inbound events, outbound payloads and the trace *)

Section Handler.
Context {JN : JsNumber}.

(** The fields [receivedMessage] reads from [event.message]. *)
Record message : Type := {
  is_echo : value;
  mid : value;
  app_id : value;
  metadata : value;
  text : value;
  attachments : value;
  quick_reply : value
}.

(** The fields it reads from the event itself. *)
Record messaging_event : Type := {
  sender_id : value;
  recipient_id : value;
  timestamp : value;
  event_message : message
}.

Record quick_reply_button : Type := {
  content_type : string;
  title : string;
  payload : value
}.

(** The three shapes of [messageData] handed to [callSendAPI]. *)
Inductive message_data : Type :=
| TextMessage (recipient : value) (message_text : string) (message_metadata : string)
| QuickReplyMessage (recipient : value) (message_text : string)
    (quick_replies : list quick_reply_button)
| SenderAction (recipient : value) (sender_action : string).

(** One step of the trace.  A request carries the variables its callback
    closes over, so that the callback can be run when the reply arrives;
    [ConsoleLogStringified m] is [console.log(JSON.stringify(m))]. *)
Inductive io : Type :=
| ConsoleLog (args : list value)
| ConsoleError (args : list value)
| ConsoleErr (args : list value)
| ConsoleLogStringified (m : message)
| CallSendAPI (messageData : message_data)
| HttpsGet (url : string) (senderID : value) (messageText : string)
| RequestGet (uri : value) (senderID : value).

(** A statement: the trace it leaves and how it completes. *)
Definition js (A : Type) : Type := (list io * completion A)%type.

Definition ret {A : Type} (a : A) : js A := ([], Normal a).

Definition bind {A B : Type} (m : js A) (k : A -> js B) : js B :=
  match m with
  | (t, Normal a) => let (t', r) := k a in ((t ++ t')%list, r)
  | (t, Abrupt e) => (t, Abrupt e)
  end.

Definition emit (step : io) : js unit := ([step], Normal tt).

Definition throw {A : Type} (e : exn) : js A := ([], Abrupt e).

Definition lift {A : Type} (c : completion A) : js A := ([], c).

(** [try { body } catch (e) { handler }] *)
Definition try_catch {A : Type} (body : js A) (handler : exn -> js A) : js A :=
  match body with
  | (t, Normal a) => (t, Normal a)
  | (t, Abrupt e) => let (t', r) := handler e in ((t ++ t')%list, r)
  end.

Definition trace {A : Type} (m : js A) : list io := fst m.
Definition outcome {A : Type} (m : js A) : completion A := snd m.

End Handler.

Declare Scope js_scope.
Delimit Scope js_scope with js.
Notation "x <- m ;; k" := (bind m (fun x => k))
  (at level 100, m at next level, right associativity) : js_scope.
Notation "m ;; k" := (bind m (fun _ => k))
  (at level 100, right associativity) : js_scope.

(** ** The runtime and the packages the program calls *)

(** [JSON.parse] completes abruptly with a [SyntaxError] on text that is
    not JSON.  [sanitizeHtml] is the package function applied with the
    options of the source (no tag, attribute or frame host allowed).
    [console_err_is_function] says whether the console object has a
    callable [err]; the console of Node.js has [log], [error], [warn],
    [info] and others, and no [err]. *)
Class Runtime {JN : JsNumber} : Type := {
  JSON_parse : string -> completion value;
  sanitizeHtml : string -> string;
  console_err_is_function : bool
}.

(** ** Configuration (lines 41-68) *)

Section Startup.
Context {JN : JsNumber}.

Record config : Type := {
  APP_SECRET : value;
  VALIDATION_TOKEN : value;
  PAGE_ACCESS_TOKEN : value;
  SERVER_URL : value;
  SEARCH_URL : value
}.

(** [process.env]: a variable is absent or holds a string. *)
Definition environment : Type := string -> option string.

(** The object the [config] package loads from the files in [/config]. *)
Definition config_file : Type := list (string * value).

(** [config.get(key)] of the [config] package: it throws for a key whose
    value is undefined. *)
Definition config_get (file : config_file) (key : string) : completion value :=
  match own_property file key with
  | Some v => Normal v
  | None =>
      Abrupt (Error ("Configuration property " ++ DQUOTE ++ key ++ DQUOTE ++ " is not defined"))
  end.

(** [(process.env.NAME) ? process.env.NAME : config.get(key)] *)
Definition setting (env : environment) (file : config_file) (name key : string)
  : completion value :=
  match env name with
  | Some s => if truthy (VStr s) then Normal (VStr s) else config_get file key
  | None => config_get file key
  end.

Inductive startup_result : Type :=
| Started (c : config)
(** [console.error("Missing config values"); process.exit(1)] *)
| ExitedMissingConfig
(** an exception at the top level of the module: the process dies *)
| StartupException (e : exn).

Definition load_config (env : environment) (file : config_file) : completion config :=
  (app_secret <-? setting env file "MESSENGER_APP_SECRET" "appSecret" ;;
   validation_token <-? setting env file "MESSENGER_VALIDATION_TOKEN" "validationToken" ;;
   page_access_token <-? setting env file "MESSENGER_PAGE_ACCESS_TOKEN" "pageAccessToken" ;;
   server_url <-? setting env file "SERVER_URL" "serverURL" ;;
   search_url <-? setting env file "SEARCH_URL" "searchURL" ;;
   Normal {| APP_SECRET := app_secret;
             VALIDATION_TOKEN := validation_token;
             PAGE_ACCESS_TOKEN := page_access_token;
             SERVER_URL := server_url;
             SEARCH_URL := search_url |})%completion.

Definition startup (env : environment) (file : config_file) : startup_result :=
  match load_config env file with
  | Abrupt e => StartupException e
  | Normal c =>
      if negb (truthy (APP_SECRET c) && truthy (VALIDATION_TOKEN c)
               && truthy (PAGE_ACCESS_TOKEN c) && truthy (SERVER_URL c))
      then ExitedMissingConfig
      else Started c
  end.

(** The five configuration values of the configuration surface. *)
Inductive config_value : Type :=
| SharedSecret | VerificationToken | AccessToken | ServerBaseUrl | SearchBaseUrl.

Definition env_name (v : config_value) : string :=
  match v with
  | SharedSecret => "MESSENGER_APP_SECRET"
  | VerificationToken => "MESSENGER_VALIDATION_TOKEN"
  | AccessToken => "MESSENGER_PAGE_ACCESS_TOKEN"
  | ServerBaseUrl => "SERVER_URL"
  | SearchBaseUrl => "SEARCH_URL"
  end.

Definition file_key (v : config_value) : string :=
  match v with
  | SharedSecret => "appSecret"
  | VerificationToken => "validationToken"
  | AccessToken => "pageAccessToken"
  | ServerBaseUrl => "serverURL"
  | SearchBaseUrl => "searchURL"
  end.

Definition refuses_to_start (r : startup_result) : bool :=
  match r with
  | Started _ => false
  | ExitedMissingConfig | StartupException _ => true
  end.

End Startup.

(** ** The program *)

Section Program.
Context {JN : JsNumber} {RT : Runtime}.
Variable cfg : config.

Local Open Scope js_scope.

Definition console_log (args : list value) : js unit := emit (ConsoleLog args).
Definition console_error (args : list value) : js unit := emit (ConsoleError args).

(** [console.err(...)]: calling a property that is not a function throws. *)
Definition console_err (args : list value) : js unit :=
  if console_err_is_function then emit (ConsoleErr args)
  else throw (TypeError "console.err is not a function").

(** *** Senders (lines 325-471) *)

(** The POST to the Send API; the callback of that request only logs. *)
Definition callSendAPI (messageData : message_data) : js unit :=
  emit (CallSendAPI messageData).

Definition sendTextMessage (recipientId : value) (messageText : string) : js unit :=
  callSendAPI (TextMessage recipientId messageText "DEVELOPER_DEFINED_METADATA").

(** [urlArray[i]] *)
Definition element (urlArray : list value) (i : nat) : value :=
  nth i urlArray VUndefined.

Definition sendQuickReply (recipientId : value) (message : string) (urlArray : list value)
  : js unit :=
  callSendAPI (QuickReplyMessage recipientId message
    [ {| content_type := "text"; title := "1"; payload := element urlArray 0 |};
      {| content_type := "text"; title := "2"; payload := element urlArray 1 |};
      {| content_type := "text"; title := "3"; payload := element urlArray 2 |};
      {| content_type := "text"; title := "4"; payload := element urlArray 3 |};
      {| content_type := "text"; title := "5"; payload := element urlArray 4 |};
      {| content_type := "text"; title := "6"; payload := element urlArray 5 |};
      {| content_type := "text"; title := "7"; payload := element urlArray 6 |};
      {| content_type := "text"; title := "8"; payload := element urlArray 7 |};
      {| content_type := "text"; title := "9"; payload := element urlArray 8 |};
      {| content_type := "text"; title := "10"; payload := element urlArray 9 |} ]).

Definition sendTypingOn (recipientId : value) : js unit :=
  console_log [VStr "Turning typing indicator on"] ;;
  callSendAPI (SenderAction recipientId "typing_on").

Definition sendTypingOff (recipientId : value) : js unit :=
  console_log [VStr "Turning typing indicator off"] ;;
  callSendAPI (SenderAction recipientId "typing_off").

(** *** Page fetch (lines 474-513) *)

Definition httpGet (senderID : value) (url : value) : js unit :=
  console_log [VStr "httpGet: Fetching: %s"; url] ;;
  emit (RequestGet url senderID).

(** What the [request] package hands to the callback: an error, or a
    response with its status code and body. *)
Inductive fetch_reply : Type :=
| FetchError (error_message : string)
| FetchResponse (statusCode : Z) (body : string).

Definition httpGet_callback (senderID : value) (url : value) (reply : fetch_reply) : js unit :=
  match reply with
  | FetchResponse statusCode body =>
      if (statusCode =? 200)%Z then
        console_log [VStr "httpGet: Successfully received response from: %s"; url] ;;
        let text := sanitizeHtml body in
        if (String.length text <? 2000)%nat then sendTextMessage senderID text
        else sendTextMessage senderID (substring 0 2000 text)
      else console_error [VStr "Failed calling httpGet from: %s"; url]
  | FetchError _ => console_error [VStr "Failed calling httpGet from: %s"; url]
  end.

(** *** Search reply (lines 251-313) *)

Definition ZERO_RESULTS_TEXT : string :=
  "Thanks for trying out this bot. Please bear with us as we already exceeded the total daily number of searches allowable by Google (by a single app). The bot will work again at 4 p.m. Philippine time when Google resets the daily limit."
  ++ BLANK_LINE ++
  "In the meantime, you may also use this as a primitive web browser. Just send a link (e.g. "
  ++ DQUOTE ++ "http://phmountains.com" ++ DQUOTE ++
  ") and the bot will respond with the text-only version of the website.".

Definition OOPS_TEXT : string := "Oops! An error was encountered. Please try again.".

Definition HELP_TEXT : string :=
  "Search the Internet for free! You may also get the text contents of a website by sending us the complete http link (e.g. "
  ++ DQUOTE ++ "https://phmountains.com" ++ DQUOTE ++ ").".

(** The variables [index], [total] and [links] of the [try] block. *)
Record search_state : Type := {
  index : nat;
  total : string;
  links : list value
}.

Definition initial_state : search_state := {| index := 1; total := ""; links := [] |}.

(** The body of the function passed to [obj.items.forEach]. *)
Definition format_item (st : search_state) (item : value) : completion search_state :=
  let total1 := if negb (index st =? 1)%nat then (total st ++ BLANK_LINE)%string else total st in
  (item_title <-? get_prop item K_title ;;
   title_text <-? to_string item_title ;;
   item_snippet <-? get_prop item K_snippet ;;
   snippet_text <-? to_string item_snippet ;;
   item_link <-? get_prop item K_link ;;
   Normal {| index := S (index st);
             total := (total1 ++ (decimal (index st) ++ ". " ++ title_text
                                  ++ BLANK_LINE ++ snippet_text))%string;
             links := (links st ++ [item_link])%list |})%completion.

(** [Array.prototype.forEach] with a body that updates the enclosing
    variables; an exception in the body ends the loop. *)
Fixpoint forEach (elements : list value) (st : search_state) : completion search_state :=
  match elements with
  | [] => Normal st
  | item :: rest => cbind (format_item st item) (forEach rest)
  end.

(** [obj.items.forEach]: only an array has the method. *)
Definition array_elements (items : value) : completion (list value) :=
  match items with
  | VArr elements => Normal elements
  | _ => Abrupt (TypeError "obj.items.forEach is not a function")
  end.

(** [data] once every ['data'] event has run [data += chunk]; [chunks]
    are the arguments of these events, in order of arrival. *)
Definition received_data (chunks : list string) : string := fold_left append chunks "".

(** The handler of the response's ['end'] event. *)
Definition search_on_end (senderID : value) (messageText : string) (chunks : list string)
  : js unit :=
  let data := received_data chunks in
  console_log [VStr data] ;;
  sendTypingOff senderID ;;
  try_catch
    (obj <- lift (JSON_parse data) ;;
     items <- lift (get_prop obj K_items) ;;
     if not_loosely_null items then
       elements <- lift (array_elements items) ;;
       st <- lift (forEach elements initial_state) ;;
       console_log [VStr ("Googled " ++ messageText ++ ": "
                          ++ decimal (List.length elements) ++ " results")] ;;
       if (String.length (total st) <? 2000)%nat
       then sendQuickReply senderID (total st) (links st)
       else sendQuickReply senderID (substring 0 2000 (total st)) (links st)
     else
       console_log [VStr ("Googled " ++ messageText ++ ": ZERO results")] ;;
       sendTextMessage senderID ZERO_RESULTS_TEXT)
    (fun e =>
       console_err [VStr ("Error: " ++ exn_message e)] ;;
       sendTextMessage senderID OOPS_TEXT).

(** The handler of the request's ['error'] event. *)
Definition search_on_error (senderID : value) (err_message : string) : js unit :=
  console_err [VStr ("Error: " ++ err_message)] ;;
  sendTypingOff senderID ;;
  sendTextMessage senderID ("Error: " ++ err_message).

Inductive search_reply : Type :=
| SearchEnd (chunks : list string)
| SearchError (err_message : string).

Definition search_callback (senderID : value) (messageText : string) (reply : search_reply)
  : js unit :=
  match reply with
  | SearchEnd chunks => search_on_end senderID messageText chunks
  | SearchError err_message => search_on_error senderID err_message
  end.

(** *** receivedMessage (lines 206-319) *)

(** [messageText.startsWith(p)] *)
Definition startsWith (s p : string) : bool := String.prefix p s.

Definition receivedMessage (event : messaging_event) : js unit :=
  let senderID := sender_id event in
  let recipientID := recipient_id event in
  let timeOfMessage := timestamp event in
  let message := event_message event in
  console_log [VStr "Received message for user %d and page %d at %d with message:";
               senderID; recipientID; timeOfMessage] ;;
  emit (ConsoleLogStringified message) ;;
  let isEcho := is_echo message in
  let messageId := mid message in
  let appId := app_id message in
  let messageText := text message in
  let messageAttachments := attachments message in
  let quickReply := quick_reply message in
  if truthy isEcho then
    console_log [VStr "Received echo for message %s and app %d with metadata %s";
                 messageId; appId; metadata message]
  else if truthy quickReply then
    quickReplyPayload <- lift (get_prop quickReply K_payload) ;;
    console_log [VStr "Quick reply for message %s with payload %s";
                 messageId; quickReplyPayload] ;;
    httpGet senderID quickReplyPayload
  else if truthy messageText then
    sendTypingOn senderID ;;
    match messageText with
    | VStr s =>
        if startsWith s "http://" || startsWith s "https://" then
          httpGet senderID messageText
        else
          search_url <- lift (to_string (SEARCH_URL cfg)) ;;
          emit (HttpsGet (search_url ++ s) senderID s)
    | _ => throw (TypeError "messageText.startsWith is not a function")
    end
  else if truthy messageAttachments then
    sendTextMessage senderID HELP_TEXT
  else ret tt.

End Program.

(** ** One event from arrival to the end of its callbacks *)

Section Session.
Context {JN : JsNumber} {RT : Runtime}.
Variable cfg : config.

(** What can be seen of the handling of one event: the steps the program
    takes, the arrival of a reply, and an exception nobody catches. *)
Inductive observation : Type :=
| Did (step : io)
| SearchReplied (reply : search_reply)
| FetchReplied (reply : fetch_reply)
| Uncaught (e : exn).

Definition run (m : js unit) : list observation :=
  (map Did (trace m) ++
   match outcome m with
   | Normal _ => []
   | Abrupt e => [Uncaught e]
   end)%list.

(** How the outside world answers the requests; [None] is a request that
    never completes. *)
Record network : Type := {
  search_result : string -> option search_reply;
  fetch_result : value -> option fetch_reply
}.

(** The callback of a request, run when its reply arrives. *)
Definition callbacks (net : network) (step : io) : list observation :=
  match step with
  | HttpsGet url senderID messageText =>
      match search_result net url with
      | Some reply => SearchReplied reply :: run (search_callback senderID messageText reply)
      | None => []
      end
  | RequestGet uri senderID =>
      match fetch_result net uri with
      | Some reply => FetchReplied reply :: run (httpGet_callback senderID uri reply)
      | None => []
      end
  | _ => []
  end.

Definition handle_event (net : network) (event : messaging_event) : list observation :=
  let m := receivedMessage cfg event in
  (run m ++ flat_map (callbacks net) (trace m))%list.

(** *** Projections of a trace *)

(** The payloads handed to the Send API, in order. *)
Fixpoint sent (t : list io) : list message_data :=
  match t with
  | [] => []
  | CallSendAPI d :: rest => d :: sent rest
  | _ :: rest => sent rest
  end.

(** The typing signals and the outgoing requests of an event. *)
Inductive signal : Type :=
| TypingOn
| TypingOff
| SearchDispatched (url : string)
| SearchCompleted
| FetchDispatched (uri : value)
| FetchCompleted.

Definition signal_of (o : observation) : list signal :=
  match o with
  | Did (CallSendAPI (SenderAction _ a)) =>
      if String.eqb a "typing_on" then [TypingOn]
      else if String.eqb a "typing_off" then [TypingOff]
      else []
  | Did (HttpsGet url _ _) => [SearchDispatched url]
  | Did (RequestGet uri _) => [FetchDispatched uri]
  | SearchReplied _ => [SearchCompleted]
  | FetchReplied _ => [FetchCompleted]
  | _ => []
  end.

Definition signals (l : list observation) : list signal := flat_map signal_of l.

(** The messages (text or quick replies, not sender actions) an event
    delivers to the user. *)
Definition delivered_of (o : observation) : list message_data :=
  match o with
  | Did (CallSendAPI (SenderAction _ _)) => []
  | Did (CallSendAPI d) => [d]
  | _ => []
  end.

Definition delivered (l : list observation) : list message_data := flat_map delivered_of l.

Definition is_text_message (d : message_data) : bool :=
  match d with
  | TextMessage _ _ _ => true
  | _ => false
  end.

Definition is_quick_reply_message (d : message_data) : bool :=
  match d with
  | QuickReplyMessage _ _ _ => true
  | _ => false
  end.

End Session.

(** ** A concrete runtime for the examples *)

(** Integer-valued numbers with their decimal text. *)
Definition integer_number_to_string (z : Z) : string :=
  if (z <? 0)%Z then "-" ++ decimal (Z.to_nat (- z)) else decimal (Z.to_nat z).

#[global] Instance integer_numbers : JsNumber := {|
  number := Z;
  number_to_string := integer_number_to_string;
  number_truthy := fun z => negb (z =? 0)%Z
|}.

Definition json_item (t s l : string) : value :=
  VObj [("title", VStr t); ("snippet", VStr s); ("link", VStr l)].

(** A snippet of 2500 characters. *)
Definition LONG_SNIPPET : string := string_of_list_ascii (repeat "x"%char 2500).

(** The response bodies of the examples, each with the value
    [JSON.parse] gives for it. *)
Definition BODY_EMPTY_ITEMS : string := "{" ++ DQUOTE ++ "items" ++ DQUOTE ++ ":[]}".
Definition BODY_NULL_ITEMS : string := "{" ++ DQUOTE ++ "items" ++ DQUOTE ++ ":null}".
Definition BODY_NO_ITEMS : string := "{}".
Definition BODY_TWO_ITEMS : string :=
  let q := DQUOTE in
  "{" ++ q ++ "items" ++ q ++ ":[{"
  ++ q ++ "title" ++ q ++ ":" ++ q ++ "A" ++ q ++ ","
  ++ q ++ "snippet" ++ q ++ ":" ++ q ++ "B" ++ q ++ ","
  ++ q ++ "link" ++ q ++ ":" ++ q ++ "L1" ++ q ++ "},{"
  ++ q ++ "title" ++ q ++ ":" ++ q ++ "C" ++ q ++ ","
  ++ q ++ "snippet" ++ q ++ ":" ++ q ++ "D" ++ q ++ ","
  ++ q ++ "link" ++ q ++ ":" ++ q ++ "L2" ++ q ++ "}]}".

Definition BODY_LONG_ITEM : string :=
  let q := DQUOTE in
  "{" ++ q ++ "items" ++ q ++ ":[{"
  ++ q ++ "title" ++ q ++ ":" ++ q ++ "T" ++ q ++ ","
  ++ q ++ "snippet" ++ q ++ ":" ++ q ++ LONG_SNIPPET ++ q ++ ","
  ++ q ++ "link" ++ q ++ ":" ++ q ++ "L" ++ q ++ "}]}".

Definition parsed_bodies : list (string * value) :=
  [ (BODY_EMPTY_ITEMS, VObj [("items", VArr [])]);
    (BODY_NULL_ITEMS, VObj [("items", VNull)]);
    (BODY_NO_ITEMS, VObj []);
    (BODY_TWO_ITEMS, VObj [("items", VArr [json_item "A" "B" "L1"; json_item "C" "D" "L2"])]);
    (BODY_LONG_ITEM, VObj [("items", VArr [json_item "T" LONG_SNIPPET "L"])]) ].

(** [JSON.parse] on the bodies above; the examples apply it to no other
    text than ["<html>"], which is not JSON. *)
Definition parse_body (data : string) : completion value :=
  match own_property parsed_bodies data with
  | Some v => Normal v
  | None => Abrupt (SyntaxError "Unexpected token < in JSON at position 0")
  end.

(** Removes every tag, as the sanitizer does on markup without entities,
    scripts or styles. *)
Fixpoint strip_tags (in_tag : bool) (html : string) : string :=
  match html with
  | EmptyString => EmptyString
  | String c rest =>
      if Ascii.eqb c "<" then strip_tags true rest
      else if Ascii.eqb c ">" then strip_tags false rest
      else if in_tag then strip_tags in_tag rest
      else String c (strip_tags in_tag rest)
  end.

(** Node.js: the console has no [err]. *)
Definition node_runtime : Runtime := {|
  JSON_parse := parse_body;
  sanitizeHtml := strip_tags false;
  console_err_is_function := false
|}.

Definition sample_config : config := {|
  APP_SECRET := VStr "secret";
  VALIDATION_TOKEN := VStr "token";
  PAGE_ACCESS_TOKEN := VStr "access";
  SERVER_URL := VStr "https://bot.example";
  SEARCH_URL := VStr "https://search.example/?q="
|}.

Definition plain_message (t : value) : message := {|
  is_echo := VUndefined;
  mid := VStr "mid.1";
  app_id := VUndefined;
  metadata := VUndefined;
  text := t;
  attachments := VUndefined;
  quick_reply := VUndefined
|}.

Definition event_of (m : message) : messaging_event := {|
  sender_id := VStr "USER";
  recipient_id := VStr "PAGE";
  timestamp := VNum 1458692752478%Z;
  event_message := m
|}.

(** The event of a tap on the third quick-reply button: its text is the
    title of the button. *)
Definition button_tap_event : messaging_event :=
  event_of {| is_echo := VUndefined; mid := VStr "mid.2"; app_id := VUndefined;
              metadata := VUndefined; text := VStr "3"; attachments := VUndefined;
              quick_reply := VObj [("payload", VStr "https://example.com")] |}.

(** An event with a URL as its text and another URL as the payload of
    its quick reply. *)
Definition url_with_quick_reply_event : messaging_event :=
  event_of {| is_echo := VUndefined; mid := VStr "mid.3"; app_id := VUndefined;
              metadata := VUndefined; text := VStr "http://a.example/";
              attachments := VUndefined;
              quick_reply := VObj [("payload", VStr "http://b.example/")] |}.

(** A network in which every search ends with the given reply and every
    fetch with the given fetch reply. *)
Definition constant_network (s : option search_reply) (f : option fetch_reply) : network := {|
  search_result := fun _ => s;
  fetch_result := fun _ => f
|}.

Definition empty_environment : environment := fun _ => None.

(** A configuration file with every key but [searchURL]. *)
Definition file_without_search_url : config_file :=
  [ ("appSecret", VStr "secret");
    ("validationToken", VStr "token");
    ("pageAccessToken", VStr "access");
    ("serverURL", VStr "https://bot.example") ].

(** ** Notions of the specification *)

Section Specification.
Context {JN : JsNumber}.

(** The first [n] characters of a text. *)
Definition first_chars (n : nat) (s : string) : string :=
  string_of_list_ascii (firstn n (list_ascii_of_string s)).

(** A search result as the reply shows it: the text of its title, the
    text of its snippet, and its link. *)
Record shown_result : Type := {
  title_text : string;
  snippet_text : string;
  result_link : value
}.

(** Index, title and snippet of one result. *)
Definition result_entry (i : nat) (r : shown_result) : string :=
  decimal i ++ ". " ++ title_text r ++ BLANK_LINE ++ snippet_text r.

Fixpoint numbered_entries (first : nat) (results : list shown_result) : list string :=
  match results with
  | [] => []
  | r :: rest => result_entry first r :: numbered_entries (S first) rest
  end.

(** The entries, numbered from 1, with a blank line between them. *)
Definition reply_text (results : list shown_result) : string :=
  String.concat BLANK_LINE (numbered_entries 1 results).

(** The item [item] has the title, snippet and link that [r] shows. *)
Definition reads_as (item : value) (r : shown_result) : Prop :=
  exists t s,
    get_prop item K_title = Normal t /\ to_string t = Normal (title_text r) /\
    get_prop item K_snippet = Normal s /\ to_string s = Normal (snippet_text r) /\
    get_prop item K_link = Normal (result_link r).

(** The variables of the loop once the results [rs] have been visited. *)
Definition state_after (rs : list shown_result) : search_state :=
  {| index := S (List.length rs); total := reply_text rs; links := map result_link rs |}.

(** The steps every run of the ['end'] handler starts with. *)
Definition end_prefix (senderID : value) (data : string) : list io :=
  [ ConsoleLog [VStr data];
    ConsoleLog [VStr "Turning typing indicator off"];
    CallSendAPI (SenderAction senderID "typing_off") ].

(** The two console calls every run of [receivedMessage] starts with. *)
Definition arrival_log (event : messaging_event) : list io :=
  [ ConsoleLog [VStr "Received message for user %d and page %d at %d with message:";
                sender_id event; recipient_id event; timestamp event];
    ConsoleLogStringified (event_message event) ].

(** The GET errored or its status is not 200. *)
Definition fetch_failed (reply : fetch_reply) : Prop :=
  match reply with
  | FetchError _ => True
  | FetchResponse statusCode _ => statusCode <> 200%Z
  end.

(** The requests among the signals of an event. *)
Definition is_request (s : signal) : bool :=
  match s with
  | SearchDispatched _ | FetchDispatched _ => true
  | _ => false
  end.

Definition requests (l : list signal) : list signal := filter is_request l.

(** The typing indicator as the bot's own signals leave it. *)
Fixpoint typing_indicator (shown : bool) (l : list signal) : bool :=
  match l with
  | [] => shown
  | TypingOn :: rest => typing_indicator true rest
  | TypingOff :: rest => typing_indicator false rest
  | _ :: rest => typing_indicator shown rest
  end.

End Specification.

(** ** The webhook routes, the signature check and the Send API callback *)

(** The HMAC of the [crypto] module:
    [crypto.createHmac('sha1', key).update(buf).digest('hex')]. *)
Class Crypto : Type := {
  hmac_sha1_hex : string -> string -> string
}.

(** The number a status code is, for the console. *)
Class JsIntegers {JN : JsNumber} : Type := {
  number_of_Z : Z -> number
}.

Section Webhook.
Context {JN : JsNumber} {RT : Runtime} {CR : Crypto} {JI : JsIntegers}.
Variable cfg : config.

Local Open Scope js_scope.

(** [v.name] for the property names of the webhook payload and of the
    Send API answer ([object], [entry], [messaging], [sender], [id],
    [optin], [message], [recipient_id], ...), none of which is on a
    prototype: an own property of an object, [undefined] otherwise, and
    an exception on [null] and [undefined]. *)
Definition get_field (v : value) (name : string) : completion value :=
  match v with
  | VUndefined => Abrupt (TypeError ("Cannot read property '" ++ name ++ "' of undefined"))
  | VNull => Abrupt (TypeError ("Cannot read property '" ++ name ++ "' of null"))
  | VObj properties =>
      match own_property properties name with
      | Some x => Normal x
      | None => Normal VUndefined
      end
  | _ => Normal VUndefined
  end.

(** The same read on a value known to be truthy, where it cannot throw. *)
Definition field (v : value) (name : string) : value :=
  match v with
  | VObj properties =>
      match own_property properties name with
      | Some x => x
      | None => VUndefined
      end
  | _ => VUndefined
  end.

(** [v == s] for a string [s] that is not the text of a number: a string
    is compared as such, an array or object through its primitive, and
    nothing else is equal to it. *)
Definition loosely_equals_string (v : value) (s : string) : completion bool :=
  match v with
  | VStr t => Normal (String.eqb t s)
  | VArr _ | VObj _ | VNative _ => cbind (to_string v) (fun t => Normal (String.eqb t s))
  | VUndefined | VNull | VBool _ | VNum _ => Normal false
  end.

(** [array.forEach(body)] for a body with effects. *)
Fixpoint for_each (elements : list value) (body : value -> js unit) : js unit :=
  match elements with
  | [] => ret tt
  | x :: rest => body x ;; for_each rest body
  end.

(** [v.forEach]: only an array has the method. *)
Definition as_array (v : value) (what : string) : completion (list value) :=
  match v with
  | VArr elements => Normal elements
  | VUndefined => Abrupt (TypeError ("Cannot read property 'forEach' of undefined"))
  | VNull => Abrupt (TypeError ("Cannot read property 'forEach' of null"))
  | _ => Abrupt (TypeError (what ++ ".forEach is not a function"))
  end.

(** *** receivedAuthentication (lines 171-190) *)

Definition receivedAuthentication (event : value) : js unit :=
  sender <- lift (get_field event "sender") ;;
  senderID <- lift (get_field sender "id") ;;
  recipient <- lift (get_field event "recipient") ;;
  recipientID <- lift (get_field recipient "id") ;;
  timeOfAuth <- lift (get_field event "timestamp") ;;
  optin <- lift (get_field event "optin") ;;
  passThroughParam <- lift (get_field optin "ref") ;;
  console_log [VStr "Received authentication for user %d and page %d with pass through param '%s' at %d";
               senderID; recipientID; passThroughParam; timeOfAuth] ;;
  sendTextMessage senderID "Authentication successful".

(** *** The event handed to receivedMessage (lines 207-224) *)

(** The fields of [event.message]; the route calls [receivedMessage]
    only when [event.message] is truthy, so none of the reads throws. *)
Definition message_record (m : value) : message := {|
  is_echo := field m "is_echo";
  mid := field m "mid";
  app_id := field m "app_id";
  metadata := field m "metadata";
  text := field m "text";
  attachments := field m "attachments";
  quick_reply := field m "quick_reply"
|}.

(** The reads of lines 207-210, which come before any effect. *)
Definition event_record (event message : value) : completion messaging_event :=
  (sender <-? get_field event "sender" ;;
   senderID <-? get_field sender "id" ;;
   recipient <-? get_field event "recipient" ;;
   recipientID <-? get_field recipient "id" ;;
   timeOfMessage <-? get_field event "timestamp" ;;
   Normal {| sender_id := senderID;
             recipient_id := recipientID;
             timestamp := timeOfMessage;
             event_message := message_record message |})%completion.

(** *** POST /webhook (lines 94-131) *)

(** The body of the inner [forEach]. *)
Definition dispatch (messagingEvent : value) : js unit :=
  optin <- lift (get_field messagingEvent "optin") ;;
  if truthy optin then receivedAuthentication messagingEvent
  else
    message <- lift (get_field messagingEvent "message") ;;
    if truthy message then
      event <- lift (event_record messagingEvent message) ;;
      receivedMessage cfg event
    else if truthy (field messagingEvent "delivery") then
      console_log [VStr "Webhook received: deliveryConfirmation"]
    else if truthy (field messagingEvent "postback") then
      console_log [VStr "Webhook received: postback"]
    else if truthy (field messagingEvent "read") then
      console_log [VStr "Webhook received: messageRead"]
    else if truthy (field messagingEvent "account_linking") then
      console_log [VStr "Webhook received: accountLinking"]
    else
      console_log [VStr "Webhook received unknown messagingEvent: "; messagingEvent].

(** The body of the outer [forEach]. *)
Definition page_entry (pageEntry : value) : js unit :=
  pageID <- lift (get_field pageEntry "id") ;;
  timeOfEvent <- lift (get_field pageEntry "time") ;;
  messaging <- lift (get_field pageEntry "messaging") ;;
  events <- lift (as_array messaging "pageEntry.messaging") ;;
  for_each events dispatch.

(** What the route answers: [res.sendStatus(200)], or nothing at all. *)
Inductive post_answer : Type :=
| SentStatus200
| NoAnswer.

Definition webhook_post (data : value) : js post_answer :=
  object <- lift (get_field data "object") ;;
  is_page <- lift (loosely_equals_string object "page") ;;
  if is_page : bool then
    entry <- lift (get_field data "entry") ;;
    entries <- lift (as_array entry "data.entry") ;;
    for_each entries page_entry ;;
    ret SentStatus200
  else ret NoAnswer.

(** *** GET /webhook (lines 75-84) *)

(** A value of [req.query]: absent, a string, or the array or object the
    query parser builds for repeated and bracketed keys. *)
Inductive query_value : Type :=
| QAbsent
| QString (s : string)
| QNested.

Record verification_query : Type := {
  hub_mode : query_value;
  hub_verify_token : query_value;
  hub_challenge : query_value
}.

(** [q === v] for a query value and a configuration value: equal
    strings, or both undefined; a parsed array or object is a fresh
    object, identical to nothing else. *)
Definition strictly_equals (q : query_value) (v : value) : bool :=
  match q, v with
  | QString s, VStr t => String.eqb s t
  | QAbsent, VUndefined => true
  | _, _ => false
  end.

Inductive get_answer : Type :=
| Sent200 (body : query_value)
| SentStatus403.

Definition webhook_get (query : verification_query) : list io * get_answer :=
  if (match hub_mode query with
      | QString m => String.eqb m "subscribe"
      | _ => false
      end) && strictly_equals (hub_verify_token query) (VALIDATION_TOKEN cfg)
  then ([ConsoleLog [VStr "Validating webhook"]], Sent200 (hub_challenge query))
  else ([ConsoleError [VStr "Failed validation. Make sure the validation tokens match."]],
        SentStatus403).

(** *** verifyRequestSignature (lines 141-161) *)

(** [signature.split('=')] *)
Fixpoint split_equals (s : string) : list string :=
  match s with
  | EmptyString => [EmptyString]
  | String c rest =>
      if Ascii.eqb c "=" then EmptyString :: split_equals rest
      else match split_equals rest with
           | first :: others => String c first :: others
           | [] => [String c EmptyString]
           end
  end.

(** [signature] is [req.headers["x-hub-signature"]], absent or a
    string; [buf] is the raw body.  [createHmac] takes a string key; a
    configuration value of another JSON type makes it throw. *)
Definition verifyRequestSignature (signature : option string) (buf : string) : js unit :=
  match signature with
  | Some s =>
      if truthy (VStr s) then
        let elements := split_equals s in
        let signatureHash := nth_error elements 1 in
        expectedHash <-
          match APP_SECRET cfg with
          | VStr key => ret (hmac_sha1_hex key buf)
          | _ => throw (TypeError "The key argument must be of type string")
          end ;;
        match signatureHash with
        | Some h =>
            if negb (String.eqb h expectedHash)
            then throw (Error "Couldn't validate the request signature.")
            else ret tt
        | None => throw (Error "Couldn't validate the request signature.")
        end
      else console_error [VStr "Couldn't validate the signature."]
  | None => console_error [VStr "Couldn't validate the signature."]
  end.

(** *** The callback of callSendAPI (lines 455-470) *)

(** What the [request] package hands to the callback: an error alone, or
    a response and its parsed body. *)
Inductive send_reply : Type :=
| SendError (error_message : string)
| SendResponse (statusCode : Z) (statusMessage : string) (body : value).

Definition callSendAPI_callback (reply : send_reply) : js unit :=
  match reply with
  | SendResponse statusCode statusMessage body =>
      if (statusCode =? 200)%Z then
        recipientId <- lift (get_field body "recipient_id") ;;
        messageId <- lift (get_field body "message_id") ;;
        if truthy messageId then
          console_log [VStr "Successfully sent message with id %s to recipient %s";
                       messageId; recipientId]
        else
          console_log [VStr "Successfully called Send API for recipient %s"; recipientId]
      else
        body_error <- lift (get_field body "error") ;;
        console_error [VStr "Failed calling Send API"; VNum (number_of_Z statusCode);
                       VStr statusMessage; body_error]
  | SendError _ =>
      (* [response] is undefined: reading [response.statusCode] throws *)
      throw (TypeError "Cannot read property 'statusCode' of undefined")
  end.

End Webhook.

(** *** Examples for the routes *)

(** A stand-in for the digest in the examples: it is not a hash. *)
#[global] Instance sample_crypto : Crypto := {|
  hmac_sha1_hex := fun key buf =>
    if String.eqb key "secret" then "2fd4e1c67a2d28fced849ee1bb76e7391b93eb12"
    else "da39a3ee5e6b4b0d3255bfef95601890afd80709"
|}.

#[global] Instance integer_statuses : JsIntegers := {| number_of_Z := fun z => z |}.

Definition json_sender (id : string) : value := VObj [("id", VStr id)].

(** A messaging event with an [optin] and a [message]. *)
Definition optin_and_message_event : value :=
  VObj [ ("sender", json_sender "USER"); ("recipient", json_sender "PAGE");
         ("timestamp", VNum 1458692752478%Z);
         ("optin", VObj [("ref", VStr "PASS_THROUGH")]);
         ("message", VObj [("mid", VStr "mid.1"); ("text", VStr "cats")]) ].

Definition text_event (t : value) : value :=
  VObj [ ("sender", json_sender "USER"); ("recipient", json_sender "PAGE");
         ("timestamp", VNum 1458692752478%Z);
         ("message", VObj [("mid", VStr "mid.1"); ("text", t)]) ].

Definition delivery_event : value :=
  VObj [ ("sender", json_sender "USER"); ("recipient", json_sender "PAGE");
         ("delivery", VObj [("watermark", VNum 1458668856253%Z)]) ].

Definition page_entry_value (events : list value) : value :=
  VObj [ ("id", VStr "PAGE"); ("time", VNum 1458692752478%Z);
         ("messaging", VArr events) ].

Definition page_body (events : list value) : value :=
  VObj [ ("object", VStr "page"); ("entry", VArr [page_entry_value events]) ].

(** A message event whose text is the number 42. *)
Definition number_text_event : value := text_event (VNum 42%Z).

Definition full_environment : environment := fun name =>
  if String.eqb name "MESSENGER_APP_SECRET" then Some "secret"
  else if String.eqb name "MESSENGER_VALIDATION_TOKEN" then Some "token"
  else if String.eqb name "MESSENGER_PAGE_ACCESS_TOKEN" then Some "access"
  else if String.eqb name "SERVER_URL" then Some "https://bot.example"
  else if String.eqb name "SEARCH_URL" then Some "https://search.example/?q="
  else None.

(** Two more response bodies: an items list whose second item is
    [null], and an [items] that is a string. *)
Definition BODY_NULL_ITEM : string :=
  let q := DQUOTE in
  "{" ++ q ++ "items" ++ q ++ ":[{"
  ++ q ++ "title" ++ q ++ ":" ++ q ++ "A" ++ q ++ ","
  ++ q ++ "snippet" ++ q ++ ":" ++ q ++ "B" ++ q ++ ","
  ++ q ++ "link" ++ q ++ ":" ++ q ++ "L1" ++ q ++ "},null]}".

Definition BODY_STRING_ITEMS : string :=
  "{" ++ DQUOTE ++ "items" ++ DQUOTE ++ ":" ++ DQUOTE ++ "none" ++ DQUOTE ++ "}".

(** The Node.js runtime of the examples, with [JSON.parse] also defined
    on these two bodies. *)
Definition node_runtime_more : Runtime := {|
  JSON_parse := fun data =>
    if String.eqb data BODY_NULL_ITEM
    then Normal (VObj [("items", VArr [json_item "A" "B" "L1"; VNull])])
    else if String.eqb data BODY_STRING_ITEMS
    then Normal (VObj [("items", VStr "none")])
    else parse_body data;
  sanitizeHtml := strip_tags false;
  console_err_is_function := false
|}.

(** An environment that sets the shared secret only, a configuration
    file that defines the five values, and the configuration the two
    give. *)
Definition secret_only_environment : environment := fun name =>
  if String.eqb name "MESSENGER_APP_SECRET" then Some "from-environment" else None.

Definition full_file : config_file :=
  [ ("appSecret", VStr "from-file");
    ("validationToken", VStr "token");
    ("pageAccessToken", VStr "access");
    ("serverURL", VStr "https://bot.example");
    ("searchURL", VStr "https://search.example/?q=") ].

Definition mixed_config : config := {|
  APP_SECRET := VStr "from-environment";
  VALIDATION_TOKEN := VStr "token";
  PAGE_ACCESS_TOKEN := VStr "access";
  SERVER_URL := VStr "https://bot.example";
  SEARCH_URL := VStr "https://search.example/?q="
|}.

(** *** Notions for the properties of the routes *)

Section Notions.
Context {JN : JsNumber}.

(** Whom a payload is addressed to. *)
Definition recipient_of (d : message_data) : value :=
  match d with
  | TextMessage r _ _ => r
  | QuickReplyMessage r _ _ => r
  | SenderAction r _ => r
  end.

(** Every payload among the observations is addressed to [who]. *)
Definition addressed_to (who : value) (o : observation) : Prop :=
  match o with
  | Did (CallSendAPI d) => recipient_of d = who
  | _ => True
  end.

(** The text of a message, and the empty text for a sender action. *)
Definition text_of (d : message_data) : string :=
  match d with
  | TextMessage _ t _ => t
  | QuickReplyMessage _ t _ => t
  | SenderAction _ _ => ""
  end.

(** A step that only writes to the console. *)
Definition is_console (step : io) : bool :=
  match step with
  | ConsoleLog _ | ConsoleError _ | ConsoleErr _ | ConsoleLogStringified _ => true
  | _ => false
  end.

(** A step that writes to the console or turns the typing indicator of
    [who] on. *)
Definition quiet (who : value) (step : io) : Prop :=
  is_console step = true \/ step = CallSendAPI (SenderAction who "typing_on").

(** What follows a request once the network has answered it. *)
Definition after_fetch {RT : Runtime} (net : network) (senderID url : value)
  : list observation :=
  match fetch_result net url with
  | Some reply => FetchReplied reply :: run (httpGet_callback senderID url reply)
  | None => []
  end.

Definition after_search {RT : Runtime} (net : network) (senderID : value)
    (url messageText : string) : list observation :=
  match search_result net url with
  | Some reply => SearchReplied reply :: run (search_callback senderID messageText reply)
  | None => []
  end.

(** The configuration value a name of the configuration surface stands
    for. *)
Definition config_field (v : config_value) (c : config) : value :=
  match v with
  | SharedSecret => APP_SECRET c
  | VerificationToken => VALIDATION_TOKEN c
  | AccessToken => PAGE_ACCESS_TOKEN c
  | ServerBaseUrl => SERVER_URL c
  | SearchBaseUrl => SEARCH_URL c
  end.

(** A text without the character "=". *)
Fixpoint no_equals (s : string) : bool :=
  match s with
  | EmptyString => true
  | String c rest => negb (Ascii.eqb c "=") && no_equals rest
  end.

End Notions.

(** * Properties *)

(** ** Strings and traces *)

Lemma append_nil_r (s : string) : s ++ "" = s.
Proof. induction s as [|c s IH]; simpl; [reflexivity | now rewrite IH]. Qed.

Lemma append_assoc (a b c : string) : (a ++ b) ++ c = a ++ (b ++ c).
Proof. induction a as [|x a IH]; simpl; [reflexivity | now rewrite IH]. Qed.

Lemma first_chars_all (n : nat) (s : string) :
  String.length s <= n -> first_chars n s = s.
Proof.
  unfold first_chars. revert n.
  induction s as [|c s IH]; intros n H; simpl.
  - now destruct n.
  - destruct n as [|n]; simpl in *; [lia|].
    f_equal. apply IH. lia.
Qed.

(** [s.substring(0, n)] is the first [n] characters of [s]. *)
Lemma substring_first_chars (n : nat) (s : string) :
  substring 0 n s = first_chars n s.
Proof.
  unfold first_chars. revert s.
  induction n as [|n IH]; intros s.
  - now destruct s.
  - destruct s as [|c s]; simpl; [reflexivity|].
    now rewrite IH.
Qed.

Lemma first_chars_length (n : nat) (s : string) :
  n <= String.length s -> String.length (first_chars n s) = n.
Proof.
  unfold first_chars. revert s.
  induction n as [|n IH]; intros s H.
  - reflexivity.
  - destruct s as [|c s]; simpl in *; [lia|].
    f_equal. apply IH. lia.
Qed.

(** ** C8: the ten quick-reply buttons *)

(** C8. The message that [sendQuickReply] hands to the Send API has
    exactly ten buttons, titled "1" to "10" in order; their payloads are
    the first ten entries of the links list in the same order, followed by
    [undefined] for each of the ten positions the list does not reach. *)
Theorem C8_ten_buttons {JN : JsNumber} (recipientId : value) (message : string)
    (urlArray : list value) :
  exists buttons,
    trace (sendQuickReply recipientId message urlArray)
      = [CallSendAPI (QuickReplyMessage recipientId message buttons)] /\
    List.length buttons = 10 /\
    map title buttons = map decimal (seq 1 10) /\
    map payload buttons
      = (firstn 10 urlArray ++ repeat VUndefined (10 - List.length urlArray))%list.
Proof.
  eexists. split; [reflexivity|].
  split; [reflexivity|].
  split; [reflexivity|].
  unfold element.
  do 10 (destruct urlArray as [|? urlArray]; [reflexivity|]).
  reflexivity.
Qed.

(** ** C9: a failed page fetch is silent *)

(** C9. When the GET of a page errors or answers with a status other
    than 200, the callback of [httpGet] logs the failure with
    [console.error] and does nothing else: from the call of [httpGet] to
    the end of its callback no payload of any kind goes to the Send
    API. *)
Theorem C9_fetch_failure_silent {JN : JsNumber} {RT : Runtime}
    (senderID url : value) (reply : fetch_reply) :
  fetch_failed reply ->
  httpGet_callback senderID url reply
    = ([ConsoleError [VStr "Failed calling httpGet from: %s"; url]], Normal tt) /\
  sent (trace (httpGet senderID url) ++ trace (httpGet_callback senderID url reply)) = [].
Proof.
  intros H.
  assert (E : httpGet_callback senderID url reply
              = ([ConsoleError [VStr "Failed calling httpGet from: %s"; url]], Normal tt)).
  { destruct reply as [m | code body]; simpl in *.
    - reflexivity.
    - destruct (Z.eqb_spec code 200) as [->|_]; [contradiction | reflexivity]. }
  rewrite E. split; reflexivity.
Qed.

Lemma C9_fetch_failure_silent_witness :
  fetch_failed (FetchResponse 404 "<h1>Not Found</h1>") /\
  sent (trace (httpGet (VStr "USER") (VStr "http://x.example/")) ++
        trace (@httpGet_callback _ node_runtime (VStr "USER") (VStr "http://x.example/")
                 (FetchResponse 404 "<h1>Not Found</h1>"))) = [].
Proof.
  split.
  - simpl. lia.
  - apply (@C9_fetch_failure_silent _ node_runtime). simpl. lia.
Defined.

(** ** C3: start-up with a missing configuration value *)

Lemma setting_missing {JN : JsNumber} (env : environment) (file : config_file)
    (name key : string) :
  env name = None ->
  own_property file key = None ->
  exists e, setting env file name key = Abrupt e.
Proof.
  intros He Hf. unfold setting, config_get. rewrite He, Hf. eexists. reflexivity.
Qed.

Lemma startup_exception {JN : JsNumber} (env : environment) (file : config_file) (e : exn) :
  load_config env file = Abrupt e -> refuses_to_start (startup env file) = true.
Proof. intros H. unfold startup. now rewrite H. Qed.

(** C3. If one of the five configuration values is neither in the
    environment nor in the configuration file, start-up does not reach
    the server: reading the value throws at the top level of the module
    and the process exits with an error. *)
Theorem C3_missing_value_refuses_to_start {JN : JsNumber}
    (env : environment) (file : config_file) (v : config_value) :
  env (env_name v) = None ->
  own_property file (file_key v) = None ->
  refuses_to_start (startup env file) = true.
Proof.
  intros He Hf.
  destruct (setting_missing env file _ _ He Hf) as [e E].
  assert (H : exists e', load_config env file = Abrupt e').
  { unfold load_config.
    destruct v; simpl in E;
      repeat match goal with
             | |- context [cbind (setting env file ?n ?k) _] =>
                 first [ rewrite E; simpl
                       | destruct (setting env file n k); simpl ]
             | |- exists e', Abrupt _ = Abrupt e' => eexists; reflexivity
             end. }
  destruct H as [e' E'].
  exact (startup_exception env file E').
Qed.

Lemma C3_missing_value_refuses_to_start_witness :
  empty_environment (env_name SearchBaseUrl) = None /\
  own_property file_without_search_url (file_key SearchBaseUrl) = None /\
  refuses_to_start (startup empty_environment file_without_search_url) = true.
Proof.
  split; [reflexivity|].
  split; [reflexivity|].
  apply (C3_missing_value_refuses_to_start empty_environment file_without_search_url
           SearchBaseUrl); reflexivity.
Defined.

(** The test before [process.exit(1)] reads four of the five values: a
    search URL that is present and empty passes it, where an empty server
    URL does not. *)
Remark empty_search_url_starts :
  refuses_to_start
    (startup empty_environment
       (file_without_search_url ++ [("searchURL", VStr "")])%list) = false
  /\ startup empty_environment
       [ ("appSecret", VStr "secret"); ("validationToken", VStr "token");
         ("pageAccessToken", VStr "access"); ("serverURL", VStr "");
         ("searchURL", VStr "https://search.example/?q=") ]
     = ExitedMissingConfig.
Proof. split; reflexivity. Qed.

(** ** C5: the formatted reply and the links *)

Lemma concat_snoc (sep x : string) (l : list string) :
  String.concat sep (l ++ [x])
  = match l with
    | [] => x
    | _ :: _ => String.concat sep l ++ sep ++ x
    end.
Proof.
  induction l as [|a l IH]; [reflexivity|].
  simpl app. simpl String.concat at 1.
  destruct l as [|b l].
  - reflexivity.
  - simpl app in *. rewrite IH.
    change (String.concat sep (a :: b :: l))
      with (a ++ sep ++ String.concat sep (b :: l)).
    now rewrite !append_assoc.
Qed.

Lemma numbered_entries_snoc {JN : JsNumber} (rs : list shown_result) (r : shown_result) :
  forall first,
    numbered_entries first (rs ++ [r])
    = (numbered_entries first rs ++ [result_entry (first + List.length rs) r])%list.
Proof.
  induction rs as [|a rs IH]; intros first; simpl.
  - now rewrite Nat.add_0_r.
  - rewrite IH. now rewrite Nat.add_succ_r.
Qed.

Lemma reply_text_snoc {JN : JsNumber} (rs : list shown_result) (r : shown_result) :
  reply_text (rs ++ [r])
  = (match rs with
     | [] => ""
     | _ :: _ => reply_text rs ++ BLANK_LINE
     end) ++ result_entry (S (List.length rs)) r.
Proof.
  unfold reply_text. rewrite numbered_entries_snoc, concat_snoc.
  destruct rs as [|a rs]; [reflexivity|].
  simpl numbered_entries. cbv iota. now rewrite append_assoc.
Qed.

Lemma format_item_reads {JN : JsNumber} (rs : list shown_result) (item : value)
    (r : shown_result) :
  reads_as item r ->
  format_item (state_after rs) item = Normal (state_after (rs ++ [r])).
Proof.
  intros (t & s & Ht & Htt & Hs & Hst & Hl).
  unfold format_item. rewrite Ht. simpl cbind. rewrite Htt. simpl cbind.
  rewrite Hs. simpl cbind. rewrite Hst. simpl cbind. rewrite Hl. simpl cbind.
  unfold state_after. f_equal.
  rewrite length_app, map_app, reply_text_snoc. simpl List.length.
  rewrite Nat.add_1_r. simpl index. simpl total. simpl links.
  f_equal.
  destruct rs as [|a rs]; reflexivity.
Qed.

Lemma forEach_reads {JN : JsNumber} (elements : list value) (results : list shown_result) :
  Forall2 reads_as elements results ->
  forall visited,
    forEach elements (state_after visited) = Normal (state_after (visited ++ results)).
Proof.
  induction 1 as [|item r elements results Hr _ IH]; intros visited; simpl.
  - now rewrite app_nil_r.
  - rewrite (format_item_reads visited Hr). simpl.
    rewrite IH. now rewrite <- app_assoc.
Qed.

(** C5. For every items list whose items have a title, a snippet and a
    link, the loop over the items leaves in [total] the entries "index.
    title", blank line, snippet, numbered from 1 in the order of the list
    and separated by blank lines, and in [links] the links in the same
    order.  (The witness is the response with the items A/B/L1 and
    C/D/L2.) *)
Theorem C5_formatted_reply {JN : JsNumber} (elements : list value)
    (results : list shown_result) :
  Forall2 reads_as elements results ->
  forEach elements initial_state
  = Normal {| index := S (List.length results);
              total := String.concat BLANK_LINE (numbered_entries 1 results);
              links := map result_link results |}.
Proof.
  intros H. exact (forEach_reads H []).
Qed.

Lemma C5_formatted_reply_witness :
  Forall2 reads_as
    [json_item "A" "B" "L1"; json_item "C" "D" "L2"]
    [ {| title_text := "A"; snippet_text := "B"; result_link := VStr "L1" |};
      {| title_text := "C"; snippet_text := "D"; result_link := VStr "L2" |} ] /\
  forEach [json_item "A" "B" "L1"; json_item "C" "D" "L2"] initial_state
  = Normal {| index := 3;
              total := "1. A" ++ BLANK_LINE ++ "B" ++ BLANK_LINE ++ "2. C" ++ BLANK_LINE ++ "D";
              links := [VStr "L1"; VStr "L2"] |}.
Proof.
  assert (H : Forall2 reads_as
                [json_item "A" "B" "L1"; json_item "C" "D" "L2"]
                [ {| title_text := "A"; snippet_text := "B"; result_link := VStr "L1" |};
                  {| title_text := "C"; snippet_text := "D"; result_link := VStr "L2" |} ]).
  { repeat constructor; eexists (VStr _), (VStr _); repeat split; reflexivity. }
  split; [exact H|].
  exact (C5_formatted_reply H).
Defined.

(** ** The handler of the search response, case by case *)

Ltac step_js :=
  cbn [bind lift emit throw ret try_catch app
       console_log console_error sendTypingOn sendTypingOff
       callSendAPI sendTextMessage sendQuickReply httpGet].

Lemma search_on_end_zero {JN : JsNumber} {RT : Runtime}
    (senderID : value) (messageText : string) (chunks : list string) (obj items : value) :
  JSON_parse (received_data chunks) = Normal obj ->
  get_prop obj K_items = Normal items ->
  not_loosely_null items = false ->
  search_on_end senderID messageText chunks
  = ((end_prefix senderID (received_data chunks) ++
      [ ConsoleLog [VStr ("Googled " ++ messageText ++ ": ZERO results")];
        CallSendAPI (TextMessage senderID ZERO_RESULTS_TEXT "DEVELOPER_DEFINED_METADATA") ])%list,
     Normal tt).
Proof.
  intros Hp Hi Hn. unfold search_on_end. rewrite Hp. step_js.
  rewrite Hi. step_js. rewrite Hn. reflexivity.
Qed.

Lemma search_on_end_items {JN : JsNumber} {RT : Runtime}
    (senderID : value) (messageText : string) (chunks : list string)
    (obj : value) (elements : list value) (st : search_state) :
  JSON_parse (received_data chunks) = Normal obj ->
  get_prop obj K_items = Normal (VArr elements) ->
  forEach elements initial_state = Normal st ->
  search_on_end senderID messageText chunks
  = ((end_prefix senderID (received_data chunks) ++
      ConsoleLog [VStr ("Googled " ++ messageText ++ ": "
                        ++ decimal (List.length elements) ++ " results")]
      :: trace (sendQuickReply senderID
                  (if (String.length (total st) <? 2000)%nat then total st
                   else substring 0 2000 (total st))
                  (links st)))%list,
     Normal tt).
Proof.
  intros Hp Hi Hf. unfold search_on_end. rewrite Hp. step_js.
  rewrite Hi. cbn [not_loosely_null array_elements]. step_js.
  rewrite Hf. step_js.
  destruct (String.length (total st) <? 2000)%nat; reflexivity.
Qed.

Lemma search_on_end_not_json {JN : JsNumber} {RT : Runtime}
    (senderID : value) (messageText : string) (chunks : list string) (e : exn) :
  JSON_parse (received_data chunks) = Abrupt e ->
  search_on_end senderID messageText chunks
  = if console_err_is_function
    then ((end_prefix senderID (received_data chunks) ++
           [ ConsoleErr [VStr ("Error: " ++ exn_message e)];
             CallSendAPI (TextMessage senderID OOPS_TEXT "DEVELOPER_DEFINED_METADATA") ])%list,
          Normal tt)
    else (end_prefix senderID (received_data chunks),
          Abrupt (TypeError "console.err is not a function")).
Proof.
  intros Hp. unfold search_on_end, console_err. rewrite Hp. step_js.
  destruct console_err_is_function; reflexivity.
Qed.

Lemma search_on_error_steps {JN : JsNumber} {RT : Runtime}
    (senderID : value) (err_message : string) :
  search_on_error senderID err_message
  = if console_err_is_function
    then ([ ConsoleErr [VStr ("Error: " ++ err_message)];
            ConsoleLog [VStr "Turning typing indicator off"];
            CallSendAPI (SenderAction senderID "typing_off");
            CallSendAPI (TextMessage senderID ("Error: " ++ err_message)
                           "DEVELOPER_DEFINED_METADATA") ],
          Normal tt)
    else ([], Abrupt (TypeError "console.err is not a function")).
Proof.
  unfold search_on_error, console_err.
  destruct console_err_is_function; reflexivity.
Qed.

(** ** C1: a response without items *)

(** C1 (as the code has it). For every search response whose [items] is
    absent or null, the reply delivered to the sender is the fixed
    zero-results message, sent as a plain-text payload.  The test is
    [obj.items != null], so an empty list is not such a response: it is
    answered by a quick-reply payload with an empty text. *)
Theorem C1_no_items_zero_results {JN : JsNumber} {RT : Runtime}
    (senderID : value) (messageText : string) (chunks : list string) (obj items : value) :
  JSON_parse (received_data chunks) = Normal obj ->
  get_prop obj K_items = Normal items ->
  items = VUndefined \/ items = VNull \/ items = VArr [] ->
  delivered (run (search_on_end senderID messageText chunks))
  = match items with
    | VArr _ =>
        [QuickReplyMessage senderID ""
           (map (fun i => {| content_type := "text"; title := decimal i;
                             payload := VUndefined |}) (seq 1 10))]
    | _ => [TextMessage senderID ZERO_RESULTS_TEXT "DEVELOPER_DEFINED_METADATA"]
    end.
Proof.
  intros Hp Hi [-> | [-> | ->]].
  - now rewrite (search_on_end_zero _ _ _ Hp Hi eq_refl).
  - now rewrite (search_on_end_zero _ _ _ Hp Hi eq_refl).
  - now rewrite (search_on_end_items senderID messageText chunks Hp Hi eq_refl).
Qed.

Lemma C1_no_items_zero_results_witness :
  @JSON_parse _ node_runtime (received_data [BODY_NULL_ITEMS])
    = Normal (VObj [("items", VNull)]) /\
  get_prop (VObj [("items", VNull)]) K_items = Normal VNull /\
  delivered (run (@search_on_end _ node_runtime (VStr "USER") "cats" [BODY_NULL_ITEMS]))
  = [TextMessage (VStr "USER") ZERO_RESULTS_TEXT "DEVELOPER_DEFINED_METADATA"].
Proof.
  split; [reflexivity|].
  split; [reflexivity|].
  apply (@C1_no_items_zero_results _ node_runtime (VStr "USER") "cats" [BODY_NULL_ITEMS]
           (VObj [("items", VNull)]) VNull).
  - reflexivity.
  - reflexivity.
  - right. left. reflexivity.
Defined.

(** The response [{"items":[]}] is answered with a quick-reply payload,
    not with the zero-results text. *)
Lemma C1_empty_items_counterexample :
  @JSON_parse _ node_runtime (received_data [BODY_EMPTY_ITEMS])
    = Normal (VObj [("items", VArr [])]) /\
  delivered (run (@search_on_end _ node_runtime (VStr "USER") "cats" [BODY_EMPTY_ITEMS]))
    <> [TextMessage (VStr "USER") ZERO_RESULTS_TEXT "DEVELOPER_DEFINED_METADATA"] /\
  forallb is_text_message
    (delivered (run (@search_on_end _ node_runtime (VStr "USER") "cats" [BODY_EMPTY_ITEMS])))
    = false.
Proof.
  split; [reflexivity|].
  split; [|reflexivity].
  intros H. discriminate H.
Qed.

(** ** C6: the length cap *)

(** C6. When the response has an items list, the text of the delivered
    quick-reply message is the first 2000 characters of the formatted
    text if that text has 2000 characters or more, and the whole
    formatted text if it is shorter. *)
Theorem C6_reply_truncated_at_2000 {JN : JsNumber} {RT : Runtime}
    (senderID : value) (messageText : string) (chunks : list string)
    (obj : value) (elements : list value) (st : search_state) :
  JSON_parse (received_data chunks) = Normal obj ->
  get_prop obj K_items = Normal (VArr elements) ->
  forEach elements initial_state = Normal st ->
  exists text buttons,
    delivered (run (search_on_end senderID messageText chunks))
      = [QuickReplyMessage senderID text buttons] /\
    (2000 <= String.length (total st) -> text = first_chars 2000 (total st)) /\
    (String.length (total st) < 2000 -> text = total st).
Proof.
  intros Hp Hi Hf.
  rewrite (search_on_end_items senderID messageText chunks Hp Hi Hf).
  eexists. eexists. split; [reflexivity|].
  destruct (Nat.ltb_spec (String.length (total st)) 2000) as [Hlt | Hge]; split; intros H.
  - lia.
  - reflexivity.
  - apply substring_first_chars.
  - lia.
Qed.

Lemma C6_reply_truncated_at_2000_witness :
  @JSON_parse _ node_runtime (received_data [BODY_LONG_ITEM])
    = Normal (VObj [("items", VArr [json_item "T" LONG_SNIPPET "L"])]) /\
  get_prop (VObj [("items", VArr [json_item "T" LONG_SNIPPET "L"])]) K_items
    = Normal (VArr [json_item "T" LONG_SNIPPET "L"]) /\
  forEach [json_item "T" LONG_SNIPPET "L"] initial_state
    = Normal {| index := 2; total := "1. T" ++ BLANK_LINE ++ LONG_SNIPPET;
                links := [VStr "L"] |} /\
  exists text buttons,
    delivered (run (@search_on_end _ node_runtime (VStr "USER") "cats" [BODY_LONG_ITEM]))
      = [QuickReplyMessage (VStr "USER") text buttons] /\
    (2000 <= String.length ("1. T" ++ BLANK_LINE ++ LONG_SNIPPET) ->
     text = first_chars 2000 ("1. T" ++ BLANK_LINE ++ LONG_SNIPPET)) /\
    (String.length ("1. T" ++ BLANK_LINE ++ LONG_SNIPPET) < 2000 ->
     text = "1. T" ++ BLANK_LINE ++ LONG_SNIPPET).
Proof.
  split; [vm_compute; reflexivity|].
  split; [reflexivity|].
  split; [vm_compute; reflexivity|].
  apply (@C6_reply_truncated_at_2000 _ node_runtime (VStr "USER") "cats" [BODY_LONG_ITEM]
           (VObj [("items", VArr [json_item "T" LONG_SNIPPET "L"])])
           [json_item "T" LONG_SNIPPET "L"]
           {| index := 2; total := "1. T" ++ BLANK_LINE ++ LONG_SNIPPET;
              links := [VStr "L"] |}).
  - vm_compute. reflexivity.
  - reflexivity.
  - vm_compute. reflexivity.
Defined.

(** The two-item response from its body to the Send API: the formatted
    text, the two links on the first two buttons, and [undefined] on the
    other eight. *)
Example two_items_delivered :
  delivered (run (@search_on_end _ node_runtime (VStr "USER") "cats" [BODY_TWO_ITEMS]))
  = [QuickReplyMessage (VStr "USER")
       ("1. A" ++ BLANK_LINE ++ "B" ++ BLANK_LINE ++ "2. C" ++ BLANK_LINE ++ "D")
       (map (fun b => {| content_type := "text"; title := fst b; payload := snd b |})
            [ ("1", VStr "L1"); ("2", VStr "L2"); ("3", VUndefined); ("4", VUndefined);
              ("5", VUndefined); ("6", VUndefined); ("7", VUndefined); ("8", VUndefined);
              ("9", VUndefined); ("10", VUndefined) ])].
Proof. reflexivity. Qed.

(** The text delivered for the 2500-character snippet has 2000
    characters. *)
Example long_item_delivered_length :
  map (fun d => match d with
                | QuickReplyMessage _ t _ => String.length t
                | _ => 0
                end)
      (delivered (run (@search_on_end _ node_runtime (VStr "USER") "cats" [BODY_LONG_ITEM])))
  = [2000].
Proof. vm_compute. reflexivity. Qed.

(** ** C2: the replies to a failed search *)

(** C2 (the defect). Both failure paths log through [console.err], which
    the console of Node.js does not have.  On such a console, when the
    response body is not valid JSON the [catch] block throws at its
    first statement, and when the request errors the ['error'] handler
    throws at its first statement: in neither case is the error logged or
    an error reply sent to the sender, and the exception is not caught.
    (After a request error the typing indicator is not turned off
    either.) *)
Theorem C2_failed_search_gets_no_reply {JN : JsNumber} {RT : Runtime}
    (senderID : value) (messageText : string) (chunks : list string) (e : exn)
    (err_message : string) :
  console_err_is_function = false ->
  JSON_parse (received_data chunks) = Abrupt e ->
  (search_on_end senderID messageText chunks
     = (end_prefix senderID (received_data chunks),
        Abrupt (TypeError "console.err is not a function")) /\
   delivered (run (search_on_end senderID messageText chunks)) = [])
  /\
  (search_on_error senderID err_message
     = ([], Abrupt (TypeError "console.err is not a function")) /\
   delivered (run (search_on_error senderID err_message)) = []).
Proof.
  intros Hc Hp.
  rewrite (search_on_end_not_json senderID messageText chunks Hp), search_on_error_steps.
  rewrite Hc. repeat split.
Qed.

Lemma C2_failed_search_gets_no_reply_witness :
  @console_err_is_function _ node_runtime = false /\
  @JSON_parse _ node_runtime (received_data ["<html>"])
    = Abrupt (SyntaxError "Unexpected token < in JSON at position 0") /\
  delivered (run (@search_on_end _ node_runtime (VStr "USER") "cats" ["<html>"])) = [] /\
  delivered (run (@search_on_error _ node_runtime (VStr "USER") "socket hang up")) = [].
Proof.
  split; [reflexivity|].
  split; [reflexivity|].
  destruct (@C2_failed_search_gets_no_reply _ node_runtime (VStr "USER") "cats" ["<html>"]
              (SyntaxError "Unexpected token < in JSON at position 0") "socket hang up"
              eq_refl eq_refl) as [[_ Hend] [_ Herr]].
  split; [exact Hend | exact Herr].
Defined.

(** What the two handlers are written to do once their [console.err]
    call returns: the fixed text after a body that is not JSON, and
    typing-off followed by "Error: " and the message of the error after
    a request error. *)
Remark replies_after_console_err {JN : JsNumber} {RT : Runtime}
    (senderID : value) (messageText : string) (chunks : list string) (e : exn)
    (err_message : string) :
  console_err_is_function = true ->
  JSON_parse (received_data chunks) = Abrupt e ->
  search_on_end senderID messageText chunks
  = ((end_prefix senderID (received_data chunks) ++
      [ ConsoleErr [VStr ("Error: " ++ exn_message e)];
        CallSendAPI (TextMessage senderID OOPS_TEXT "DEVELOPER_DEFINED_METADATA") ])%list,
     Normal tt)
  /\
  search_on_error senderID err_message
  = ([ ConsoleErr [VStr ("Error: " ++ err_message)];
       ConsoleLog [VStr "Turning typing indicator off"];
       CallSendAPI (SenderAction senderID "typing_off");
       CallSendAPI (TextMessage senderID ("Error: " ++ err_message)
                      "DEVELOPER_DEFINED_METADATA") ],
     Normal tt).
Proof.
  intros Hc Hp. split.
  - rewrite (search_on_end_not_json senderID messageText chunks Hp). now rewrite Hc.
  - rewrite search_on_error_steps. now rewrite Hc.
Qed.

(** ** receivedMessage, branch by branch *)

Lemma starts_with_nonempty (s p : string) :
  p <> "" -> startsWith s p = true -> s <> "".
Proof.
  intros Hp H ->. destruct p; [now apply Hp | discriminate H].
Qed.

Lemma truthy_nonempty {JN : JsNumber} (s : string) : s <> "" -> truthy (VStr s) = true.
Proof.
  intros H. simpl. now rewrite (proj2 (String.eqb_neq s "") H).
Qed.

Lemma receivedMessage_search {JN : JsNumber}
    (cfg : config) (event : messaging_event) (s url : string) :
  truthy (is_echo (event_message event)) = false ->
  truthy (quick_reply (event_message event)) = false ->
  text (event_message event) = VStr s ->
  s <> "" ->
  startsWith s "http://" = false ->
  startsWith s "https://" = false ->
  to_string (SEARCH_URL cfg) = Normal url ->
  receivedMessage cfg event
  = ((arrival_log event ++
      [ ConsoleLog [VStr "Turning typing indicator on"];
        CallSendAPI (SenderAction (sender_id event) "typing_on");
        HttpsGet (url ++ s) (sender_id event) s ])%list,
     Normal tt).
Proof.
  intros He Hq Ht Hs H1 H2 Hu.
  unfold receivedMessage. cbv zeta.
  rewrite He, Hq, Ht, (truthy_nonempty Hs), H1, H2, Hu.
  reflexivity.
Qed.

Lemma receivedMessage_fetch_text {JN : JsNumber}
    (cfg : config) (event : messaging_event) (s : string) :
  truthy (is_echo (event_message event)) = false ->
  truthy (quick_reply (event_message event)) = false ->
  text (event_message event) = VStr s ->
  startsWith s "http://" = true \/ startsWith s "https://" = true ->
  receivedMessage cfg event
  = ((arrival_log event ++
      [ ConsoleLog [VStr "Turning typing indicator on"];
        CallSendAPI (SenderAction (sender_id event) "typing_on");
        ConsoleLog [VStr "httpGet: Fetching: %s"; VStr s];
        RequestGet (VStr s) (sender_id event) ])%list,
     Normal tt).
Proof.
  intros He Hq Ht Hp.
  assert (Hs : s <> "").
  { destruct Hp as [Hp | Hp];
      (eapply starts_with_nonempty; [|exact Hp]); discriminate. }
  assert (Ho : startsWith s "http://" || startsWith s "https://" = true).
  { destruct Hp as [-> | ->]; [reflexivity | apply orb_true_r]. }
  unfold receivedMessage. cbv zeta.
  rewrite He, Hq, Ht, (truthy_nonempty Hs), Ho.
  reflexivity.
Qed.

Lemma receivedMessage_quick_reply {JN : JsNumber}
    (cfg : config) (event : messaging_event) (url : value) :
  truthy (is_echo (event_message event)) = false ->
  truthy (quick_reply (event_message event)) = true ->
  get_prop (quick_reply (event_message event)) K_payload = Normal url ->
  receivedMessage cfg event
  = ((arrival_log event ++
      [ ConsoleLog [VStr "Quick reply for message %s with payload %s";
                    mid (event_message event); url];
        ConsoleLog [VStr "httpGet: Fetching: %s"; url];
        RequestGet url (sender_id event) ])%list,
     Normal tt).
Proof.
  intros He Hq Hp.
  unfold receivedMessage. cbv zeta.
  rewrite He, Hq, Hp.
  reflexivity.
Qed.

(** *** Signals of the callbacks *)

Lemma signals_app {JN : JsNumber} (a b : list observation) :
  signals (a ++ b) = (signals a ++ signals b)%list.
Proof. apply flat_map_app. Qed.

(** The ['end'] handler gives one typing-off and no request, whatever the
    body. *)
Lemma signals_search_on_end {JN : JsNumber} {RT : Runtime}
    (senderID : value) (messageText : string) (chunks : list string) :
  signals (run (search_on_end senderID messageText chunks)) = [TypingOff].
Proof.
  unfold search_on_end, console_err. cbv zeta.
  destruct (JSON_parse (received_data chunks)) as [obj | e]; step_js.
  - destruct (get_prop obj K_items) as [items | e]; step_js.
    + destruct (not_loosely_null items).
      * destruct (array_elements items) as [elements | e]; step_js.
        -- destruct (forEach elements initial_state) as [st | e]; step_js.
           ++ destruct (String.length (total st) <? 2000)%nat; reflexivity.
           ++ destruct console_err_is_function; reflexivity.
        -- destruct console_err_is_function; reflexivity.
      * reflexivity.
    + destruct console_err_is_function; reflexivity.
  - destruct console_err_is_function; reflexivity.
Qed.

Lemma signals_search_on_error {JN : JsNumber} {RT : Runtime}
    (senderID : value) (err_message : string) :
  signals (run (search_on_error senderID err_message))
  = if console_err_is_function then [TypingOff] else [].
Proof.
  rewrite search_on_error_steps. destruct console_err_is_function; reflexivity.
Qed.

(** The callback of a page fetch gives no signal at all. *)
Lemma signals_httpGet_callback {JN : JsNumber} {RT : Runtime}
    (senderID url : value) (reply : fetch_reply) :
  signals (run (httpGet_callback senderID url reply)) = [].
Proof.
  destruct reply as [m | code body]; simpl; [reflexivity|].
  destruct (code =? 200)%Z; [|reflexivity].
  cbn [bind console_log emit].
  destruct (String.length (sanitizeHtml body) <? 2000)%nat; reflexivity.
Qed.

(** ** C4: a search is bracketed by the typing signals *)

Lemma signals_search_event {JN : JsNumber} {RT : Runtime}
    (cfg : config) (net : network) (event : messaging_event) (s url : string) :
  truthy (is_echo (event_message event)) = false ->
  truthy (quick_reply (event_message event)) = false ->
  text (event_message event) = VStr s ->
  s <> "" ->
  startsWith s "http://" = false ->
  startsWith s "https://" = false ->
  to_string (SEARCH_URL cfg) = Normal url ->
  signals (handle_event cfg net event)
  = (TypingOn :: SearchDispatched (url ++ s) ::
     match search_result net (url ++ s) with
     | Some reply =>
         SearchCompleted :: signals (run (search_callback (sender_id event) s reply))
     | None => []
     end)%list.
Proof.
  intros He Hq Ht Hs H1 H2 Hu.
  unfold handle_event.
  rewrite (receivedMessage_search cfg event He Hq Ht Hs H1 H2 Hu).
  unfold run at 1. cbn [trace outcome fst snd arrival_log app map flat_map callbacks].
  rewrite !app_nil_r.
  destruct (search_result net (url ++ s)) as [reply|]; reflexivity.
Qed.

(** C4 (as the code has it). For every inbound message that is not an
    echo, carries no quick reply and whose text is non-empty and starts
    with neither http:// nor https://, the handler sends one typing-on
    signal and then dispatches one search request, for the search URL
    followed by that text; once the response has been received in full,
    it sends one typing-off signal, whether the body can be parsed or
    not.  On a request error the typing-off signal comes after the
    [console.err] call and is sent when that call returns. *)
Theorem C4_search_bracketed_by_typing {JN : JsNumber} {RT : Runtime}
    (cfg : config) (net : network) (event : messaging_event) (s url : string)
    (reply : search_reply) :
  truthy (is_echo (event_message event)) = false ->
  truthy (quick_reply (event_message event)) = false ->
  text (event_message event) = VStr s ->
  s <> "" ->
  startsWith s "http://" = false ->
  startsWith s "https://" = false ->
  to_string (SEARCH_URL cfg) = Normal url ->
  search_result net (url ++ s) = Some reply ->
  match reply with
  | SearchEnd _ => True
  | SearchError _ => console_err_is_function = true
  end ->
  signals (run (receivedMessage cfg event)) = [TypingOn; SearchDispatched (url ++ s)] /\
  signals (handle_event cfg net event)
  = [TypingOn; SearchDispatched (url ++ s); SearchCompleted; TypingOff].
Proof.
  intros He Hq Ht Hs H1 H2 Hu Hn Hr. split.
  - now rewrite (receivedMessage_search cfg event He Hq Ht Hs H1 H2 Hu).
  - rewrite (signals_search_event cfg net event He Hq Ht Hs H1 H2 Hu), Hn.
    destruct reply as [chunks | err_message]; cbn [search_callback].
    + now rewrite signals_search_on_end.
    + now rewrite signals_search_on_error, Hr.
Qed.

Lemma C4_search_bracketed_by_typing_witness :
  signals (@handle_event _ node_runtime sample_config
             (constant_network (Some (SearchEnd ["<html>"])) None)
             (event_of (plain_message (VStr "cats"))))
  = [TypingOn; SearchDispatched "https://search.example/?q=cats"; SearchCompleted; TypingOff].
Proof.
  apply (@C4_search_bracketed_by_typing _ node_runtime sample_config
           (constant_network (Some (SearchEnd ["<html>"])) None)
           (event_of (plain_message (VStr "cats"))) "cats" "https://search.example/?q="
           (SearchEnd ["<html>"])).
  - reflexivity.
  - reflexivity.
  - reflexivity.
  - intros H. discriminate H.
  - reflexivity.
  - reflexivity.
  - reflexivity.
  - reflexivity.
  - exact I.
Defined.

(** A quick-reply event has a text (the title of the button): it is a
    non-echo text message that starts with neither prefix, and the
    handler fetches its payload without searching or signalling. *)
Lemma C4_quick_reply_text_counterexample :
  truthy (is_echo (event_message button_tap_event)) = false /\
  text (event_message button_tap_event) = VStr "3" /\
  startsWith "3" "http://" = false /\
  startsWith "3" "https://" = false /\
  signals (@handle_event _ node_runtime sample_config
             (constant_network (Some (SearchEnd [BODY_TWO_ITEMS])) None) button_tap_event)
  = [FetchDispatched (VStr "https://example.com")].
Proof. repeat split. Qed.

(** On a request error the typing-off signal depends on [console.err]. *)
Remark signals_search_error {JN : JsNumber} {RT : Runtime}
    (cfg : config) (net : network) (event : messaging_event) (s url err_message : string) :
  truthy (is_echo (event_message event)) = false ->
  truthy (quick_reply (event_message event)) = false ->
  text (event_message event) = VStr s ->
  s <> "" ->
  startsWith s "http://" = false ->
  startsWith s "https://" = false ->
  to_string (SEARCH_URL cfg) = Normal url ->
  search_result net (url ++ s) = Some (SearchError err_message) ->
  signals (handle_event cfg net event)
  = ([TypingOn; SearchDispatched (url ++ s); SearchCompleted]
     ++ if console_err_is_function then [TypingOff] else [])%list.
Proof.
  intros He Hq Ht Hs H1 H2 Hu Hn.
  rewrite (signals_search_event cfg net event He Hq Ht Hs H1 H2 Hu), Hn.
  cbn [search_callback]. now rewrite signals_search_on_error.
Qed.

(** ** C7: what is fetched *)

Lemma signals_fetch_text_event {JN : JsNumber} {RT : Runtime}
    (cfg : config) (net : network) (event : messaging_event) (s : string) :
  truthy (is_echo (event_message event)) = false ->
  truthy (quick_reply (event_message event)) = false ->
  text (event_message event) = VStr s ->
  startsWith s "http://" = true \/ startsWith s "https://" = true ->
  signals (handle_event cfg net event)
  = (TypingOn :: FetchDispatched (VStr s) ::
     match fetch_result net (VStr s) with
     | Some _ => [FetchCompleted]
     | None => []
     end)%list.
Proof.
  intros He Hq Ht Hp.
  unfold handle_event.
  rewrite (receivedMessage_fetch_text cfg event He Hq Ht Hp).
  unfold run at 1. cbn [trace outcome fst snd arrival_log app map flat_map callbacks].
  rewrite !app_nil_r.
  destruct (fetch_result net (VStr s)) as [reply|]; [|reflexivity].
  change (signals ?l) with
    (TypingOn :: FetchDispatched (VStr s) :: FetchCompleted
       :: signals (run (httpGet_callback (sender_id event) (VStr s) reply))).
  now rewrite signals_httpGet_callback.
Qed.

Lemma signals_quick_reply_event {JN : JsNumber} {RT : Runtime}
    (cfg : config) (net : network) (event : messaging_event) (url : value) :
  truthy (is_echo (event_message event)) = false ->
  truthy (quick_reply (event_message event)) = true ->
  get_prop (quick_reply (event_message event)) K_payload = Normal url ->
  signals (handle_event cfg net event)
  = (FetchDispatched url ::
     match fetch_result net url with
     | Some _ => [FetchCompleted]
     | None => []
     end)%list.
Proof.
  intros He Hq Hp.
  unfold handle_event.
  rewrite (receivedMessage_quick_reply cfg event He Hq Hp).
  unfold run at 1. cbn [trace outcome fst snd arrival_log app map flat_map callbacks].
  rewrite !app_nil_r.
  destruct (fetch_result net url) as [reply|]; [|reflexivity].
  change (signals ?l) with
    (FetchDispatched url :: FetchCompleted
       :: signals (run (httpGet_callback (sender_id event) url reply))).
  now rewrite signals_httpGet_callback.
Qed.

(** C7 (as the code has it). For every inbound event that is not an echo:
    if it carries a quick reply, the one request the handler makes is the
    page fetch of the payload of the quick reply; if it carries none and
    its text starts with http:// or https://, the one request is the page
    fetch of exactly that text.  In both cases no search request is made,
    whatever the fetch answers. *)
Theorem C7_fetch_routing {JN : JsNumber} {RT : Runtime}
    (cfg : config) (net : network) (event : messaging_event) (url : value) :
  truthy (is_echo (event_message event)) = false ->
  (truthy (quick_reply (event_message event)) = true /\
   get_prop (quick_reply (event_message event)) K_payload = Normal url)
  \/
  (truthy (quick_reply (event_message event)) = false /\
   exists s, text (event_message event) = VStr s /\ url = VStr s /\
             (startsWith s "http://" = true \/ startsWith s "https://" = true)) ->
  requests (signals (handle_event cfg net event)) = [FetchDispatched url].
Proof.
  intros He [[Hq Hp] | [Hq (s & Ht & -> & Hs)]].
  - rewrite (signals_quick_reply_event cfg net event He Hq Hp).
    destruct (fetch_result net url); reflexivity.
  - rewrite (signals_fetch_text_event cfg net event He Hq Ht Hs).
    destruct (fetch_result net (VStr s)); reflexivity.
Qed.

Lemma C7_fetch_routing_witness :
  requests (signals (@handle_event _ node_runtime sample_config
                       (constant_network None (Some (FetchResponse 200 "<p>Hello</p>")))
                       button_tap_event))
    = [FetchDispatched (VStr "https://example.com")] /\
  requests (signals (@handle_event _ node_runtime sample_config
                       (constant_network None (Some (FetchResponse 200 "<p>Hello</p>")))
                       (event_of (plain_message (VStr "https://example.com")))))
    = [FetchDispatched (VStr "https://example.com")].
Proof.
  split.
  - apply (@C7_fetch_routing _ node_runtime).
    + reflexivity.
    + left. split; reflexivity.
  - apply (@C7_fetch_routing _ node_runtime).
    + reflexivity.
    + right. split; [reflexivity|].
      exists "https://example.com". repeat split. right. reflexivity.
Defined.

(** An event whose text is a URL and which carries a quick reply: the
    page fetched is the payload, not the text. *)
Lemma C7_text_url_with_quick_reply_counterexample :
  truthy (is_echo (event_message url_with_quick_reply_event)) = false /\
  text (event_message url_with_quick_reply_event) = VStr "http://a.example/" /\
  startsWith "http://a.example/" "http://" = true /\
  requests (signals (@handle_event _ node_runtime sample_config
                       (constant_network None None) url_with_quick_reply_event))
    = [FetchDispatched (VStr "http://b.example/")] /\
  ~ In (RequestGet (VStr "http://a.example/") (VStr "USER"))
       (trace (receivedMessage sample_config url_with_quick_reply_event)).
Proof.
  repeat split.
  intros H. simpl in H.
  repeat (destruct H as [H | H]; [discriminate H|]).
  exact H.
Qed.

(** ** C10: the fetch path and the typing indicator *)

(** C10. For every inbound message that is not an echo, carries no quick
    reply and whose text starts with http:// or https://, the typing-on
    signal is sent before the page fetch is dispatched, and no typing-off
    signal is sent for the event, whatever the fetch answers: the
    signals of the bot leave the indicator on. *)
Theorem C10_fetch_leaves_typing_on {JN : JsNumber} {RT : Runtime}
    (cfg : config) (net : network) (event : messaging_event) (s : string) :
  truthy (is_echo (event_message event)) = false ->
  truthy (quick_reply (event_message event)) = false ->
  text (event_message event) = VStr s ->
  startsWith s "http://" = true \/ startsWith s "https://" = true ->
  (exists rest,
      signals (handle_event cfg net event) = TypingOn :: FetchDispatched (VStr s) :: rest) /\
  ~ In TypingOff (signals (handle_event cfg net event)) /\
  typing_indicator false (signals (handle_event cfg net event)) = true.
Proof.
  intros He Hq Ht Hs.
  rewrite (signals_fetch_text_event cfg net event He Hq Ht Hs).
  split; [eexists; reflexivity|].
  destruct (fetch_result net (VStr s)); split; try reflexivity;
    intros H; simpl in H; intuition discriminate.
Qed.

Lemma C10_fetch_leaves_typing_on_witness :
  signals (@handle_event _ node_runtime sample_config
             (constant_network None (Some (FetchResponse 200 "<p>Hello <b>World</b></p>")))
             (event_of (plain_message (VStr "http://example.com/"))))
    = [TypingOn; FetchDispatched (VStr "http://example.com/"); FetchCompleted] /\
  ~ In TypingOff
      (signals (@handle_event _ node_runtime sample_config
                  (constant_network None (Some (FetchResponse 200 "<p>Hello <b>World</b></p>")))
                  (event_of (plain_message (VStr "http://example.com/"))))).
Proof.
  split; [reflexivity|].
  apply (@C10_fetch_leaves_typing_on _ node_runtime sample_config
           (constant_network None (Some (FetchResponse 200 "<p>Hello <b>World</b></p>")))
           (event_of (plain_message (VStr "http://example.com/"))) "http://example.com/").
  - reflexivity.
  - reflexivity.
  - reflexivity.
  - left. reflexivity.
Defined.

(** * Further properties of the program *)

(** ** receivedMessage: the branches that make no request *)

(** X1. An echo, and a message that is not an echo and has neither quick
    reply, nor text, nor attachments (an empty text counts as none), is
    only logged: the handler hands nothing to the Send API, makes no
    request, and nothing follows. *)
Theorem ignored_message_only_logged {JN : JsNumber} {RT : Runtime}
    (cfg : config) (net : network) (event : messaging_event) :
  truthy (is_echo (event_message event)) = true \/
  (truthy (quick_reply (event_message event)) = false /\
   truthy (text (event_message event)) = false /\
   truthy (attachments (event_message event)) = false) ->
  outcome (receivedMessage cfg event) = Normal tt /\
  forallb is_console (trace (receivedMessage cfg event)) = true /\
  handle_event cfg net event = map Did (trace (receivedMessage cfg event)).
Proof.
  intros H. unfold handle_event, receivedMessage. cbv zeta.
  destruct H as [He | (Hq & Ht & Ha)].
  - rewrite He. repeat split.
  - destruct (truthy (is_echo (event_message event))); [repeat split|].
    rewrite Hq, Ht, Ha. repeat split.
Qed.

Lemma ignored_message_only_logged_witness :
  @handle_event _ node_runtime sample_config (constant_network None None)
    (event_of (plain_message (VStr "")))
  = map Did (trace (receivedMessage sample_config (event_of (plain_message (VStr ""))))).
Proof.
  apply (@ignored_message_only_logged _ node_runtime sample_config
           (constant_network None None) (event_of (plain_message (VStr "")))).
  right. repeat split.
Defined.

(** X2. A message that is not an echo, has no quick reply and no text,
    and has attachments is answered with the fixed help text, once, with
    no typing signal and no request. *)
Theorem attachments_answered_with_help {JN : JsNumber} {RT : Runtime}
    (cfg : config) (net : network) (event : messaging_event) :
  truthy (is_echo (event_message event)) = false ->
  truthy (quick_reply (event_message event)) = false ->
  truthy (text (event_message event)) = false ->
  truthy (attachments (event_message event)) = true ->
  handle_event cfg net event
  = map Did (arrival_log event ++
             [CallSendAPI (TextMessage (sender_id event) HELP_TEXT
                             "DEVELOPER_DEFINED_METADATA")]).
Proof.
  intros He Hq Ht Ha. unfold handle_event, receivedMessage. cbv zeta.
  rewrite He, Hq, Ht, Ha. reflexivity.
Qed.

Lemma attachments_answered_with_help_witness :
  delivered (@handle_event _ node_runtime sample_config (constant_network None None)
               (event_of {| is_echo := VUndefined; mid := VStr "mid.4";
                            app_id := VUndefined; metadata := VUndefined;
                            text := VUndefined;
                            attachments := VArr [VObj [("type", VStr "image")]];
                            quick_reply := VUndefined |}))
  = [TextMessage (VStr "USER") HELP_TEXT "DEVELOPER_DEFINED_METADATA"].
Proof.
  rewrite (@attachments_answered_with_help _ node_runtime sample_config
             (constant_network None None)); reflexivity.
Defined.

(** X3. A text that is truthy and not a string (a number, [true], an
    array or an object in the JSON body) has no [startsWith]: the handler
    sends typing-on, then throws a TypeError, and makes no request. *)
Theorem non_string_text_throws {JN : JsNumber} {RT : Runtime}
    (cfg : config) (net : network) (event : messaging_event) :
  truthy (is_echo (event_message event)) = false ->
  truthy (quick_reply (event_message event)) = false ->
  truthy (text (event_message event)) = true ->
  (forall s, text (event_message event) <> VStr s) ->
  handle_event cfg net event
  = (map Did (arrival_log event ++
              [ ConsoleLog [VStr "Turning typing indicator on"];
                CallSendAPI (SenderAction (sender_id event) "typing_on") ])
     ++ [Uncaught (TypeError "messageText.startsWith is not a function")])%list.
Proof.
  intros He Hq Ht Hs. unfold handle_event, receivedMessage. cbv zeta.
  rewrite He, Hq, Ht.
  destruct (text (event_message event)) as [| |b|n|s|l|p|f]; try reflexivity.
  now elim (Hs s).
Qed.

Lemma non_string_text_throws_witness :
  signals (@handle_event _ node_runtime sample_config (constant_network None None)
             (event_of (plain_message (VNum 42%Z))))
  = [TypingOn].
Proof.
  rewrite (@non_string_text_throws integer_numbers node_runtime sample_config
             (constant_network None None) (event_of (plain_message (@VNum integer_numbers 42%Z)))).
  - reflexivity.
  - reflexivity.
  - reflexivity.
  - reflexivity.
  - intros s H. discriminate H.
Defined.

(** ** What one event can cause *)

(** The handling of an event has one of four shapes: steps that only log
    or turn the typing indicator on; the help text; a page fetch and what
    follows it; a search and what follows it. *)
Lemma handle_event_cases {JN : JsNumber} {RT : Runtime}
    (cfg : config) (net : network) (event : messaging_event) :
  (exists pre o, Forall (quiet (sender_id event)) pre /\
                 handle_event cfg net event = run (pre, o))
  \/ handle_event cfg net event
     = map Did (arrival_log event ++
                [CallSendAPI (TextMessage (sender_id event) HELP_TEXT
                                "DEVELOPER_DEFINED_METADATA")])
  \/ (exists pre url, Forall (quiet (sender_id event)) pre /\
        handle_event cfg net event
        = (map Did (pre ++ [RequestGet url (sender_id event)])
           ++ after_fetch net (sender_id event) url)%list)
  \/ (exists pre url s, Forall (quiet (sender_id event)) pre /\
        handle_event cfg net event
        = (map Did (pre ++ [HttpsGet url (sender_id event) s])
           ++ after_search net (sender_id event) url s)%list).
Proof.
  assert (Q : forall l, forallb is_console l = true -> Forall (quiet (sender_id event)) l).
  { intros l H. apply Forall_forall. intros x Hx. left.
    exact (proj1 (forallb_forall _ _) H x Hx). }
  assert (T : Forall (quiet (sender_id event))
                (arrival_log event ++
                 [ ConsoleLog [VStr "Turning typing indicator on"];
                   CallSendAPI (SenderAction (sender_id event) "typing_on") ])).
  { unfold arrival_log. cbn [app].
    repeat (apply Forall_cons; [first [left; reflexivity | right; reflexivity]|]).
    apply Forall_nil. }
  unfold handle_event, receivedMessage, after_fetch, after_search. cbv zeta.
  destruct (truthy (is_echo (event_message event))).
  { left. step_js. cbn [trace fst flat_map callbacks app]. rewrite app_nil_r.
    eexists _, _. split; [|reflexivity]. now apply Q. }
  destruct (truthy (quick_reply (event_message event))).
  { destruct (get_prop (quick_reply (event_message event)) K_payload) as [p | e]; step_js.
    - right. right. left.
      eexists [_; _; _; _], p. split.
      2:{ unfold run at 1. cbn [trace outcome fst snd app map flat_map callbacks].
          now rewrite !app_nil_r. }
      now apply Q.
    - left. cbn [trace fst flat_map callbacks app]. rewrite app_nil_r.
      eexists _, _. split; [|reflexivity]. now apply Q. }
  destruct (truthy (text (event_message event))).
  - destruct (text (event_message event)) as [| |b|n|s|l|p|f]; step_js;
      try (left; cbn [trace fst flat_map callbacks app]; rewrite app_nil_r;
           eexists _, _; split; [exact T | reflexivity]).
    destruct (startsWith s "http://" || startsWith s "https://"); step_js.
    + right. right. left.
      eexists [_; _; _; _; _], (VStr s). split.
      2:{ unfold run at 1. cbn [trace outcome fst snd app map flat_map callbacks].
          now rewrite !app_nil_r. }
      repeat (apply Forall_cons; [first [left; reflexivity | right; reflexivity]|]).
      apply Forall_nil.
    + destruct (to_string (SEARCH_URL cfg)) as [u | e]; step_js.
      * right. right. right.
        eexists _, (u ++ s), s. split; [exact T|].
        unfold run at 1. cbn [trace outcome fst snd app map flat_map callbacks arrival_log].
        now rewrite !app_nil_r.
      * left. cbn [trace fst flat_map callbacks app]. rewrite app_nil_r.
        eexists _, _. split; [exact T | reflexivity].
  - destruct (truthy (attachments (event_message event))); step_js.
    + right. left. reflexivity.
    + left. cbn [trace fst flat_map callbacks app]. rewrite app_nil_r.
      eexists _, _. split; [|reflexivity]. now apply Q.
Qed.

Lemma delivered_app {JN : JsNumber} (a b : list observation) :
  delivered (a ++ b) = (delivered a ++ delivered b)%list.
Proof. apply flat_map_app. Qed.

Lemma quiet_steps {JN : JsNumber} (who : value) (pre : list io) (o : completion unit) :
  Forall (quiet who) pre ->
  Forall (addressed_to who) (run (pre, o)) /\
  delivered (run (pre, o)) = [] /\
  requests (signals (run (pre, o))) = [].
Proof.
  intros H. unfold run. cbn [trace outcome fst snd].
  rewrite delivered_app, signals_app. unfold requests. rewrite filter_app.
  induction H as [|step pre Hs _ IH].
  - destruct o; repeat split; repeat constructor.
  - destruct IH as (IH1 & IH2 & IH3).
    destruct Hs as [Hs | ->].
    + destruct step; try discriminate Hs; cbn [map app];
        (split; [apply Forall_cons; [exact I | exact IH1] | split; [exact IH2 | exact IH3]]).
    + cbn [map app].
      split; [apply Forall_cons; [reflexivity | exact IH1] | split; [exact IH2 | exact IH3]].
Qed.

Lemma search_callback_effects {JN : JsNumber} {RT : Runtime}
    (senderID : value) (messageText : string) (reply : search_reply) :
  Forall (addressed_to senderID) (run (search_callback senderID messageText reply)) /\
  List.length (delivered (run (search_callback senderID messageText reply))) <= 1.
Proof.
  destruct reply as [chunks | err_message]; cbn [search_callback].
  - unfold search_on_end, console_err. cbv zeta.
    destruct (JSON_parse (received_data chunks)) as [obj | e]; step_js.
    + destruct (get_prop obj K_items) as [items | e]; step_js.
      * destruct (not_loosely_null items).
        -- destruct (array_elements items) as [elements | e]; step_js.
           ++ destruct (forEach elements initial_state) as [st | e]; step_js.
              ** destruct (String.length (total st) <? 2000)%nat;
                   split; [repeat constructor | simpl; lia | repeat constructor | simpl; lia].
              ** destruct console_err_is_function;
                   split; [repeat constructor | simpl; lia | repeat constructor | simpl; lia].
           ++ destruct console_err_is_function;
                split; [repeat constructor | simpl; lia | repeat constructor | simpl; lia].
        -- split; [repeat constructor | simpl; lia].
      * destruct console_err_is_function;
          split; [repeat constructor | simpl; lia | repeat constructor | simpl; lia].
    + destruct console_err_is_function;
        split; [repeat constructor | simpl; lia | repeat constructor | simpl; lia].
  - rewrite search_on_error_steps.
    destruct console_err_is_function;
      split; [repeat constructor | simpl; lia | repeat constructor | simpl; lia].
Qed.

Lemma httpGet_callback_effects {JN : JsNumber} {RT : Runtime}
    (senderID url : value) (reply : fetch_reply) :
  Forall (addressed_to senderID) (run (httpGet_callback senderID url reply)) /\
  List.length (delivered (run (httpGet_callback senderID url reply))) <= 1.
Proof.
  destruct reply as [m | code body]; cbn [httpGet_callback].
  - split; [repeat constructor | simpl; lia].
  - destruct (code =? 200)%Z; [|split; [repeat constructor | simpl; lia]].
    step_js.
    destruct (String.length (sanitizeHtml body) <? 2000)%nat;
      split; [repeat constructor | simpl; lia | repeat constructor | simpl; lia].
Qed.

(** X4. Whatever the event and whatever the network answers, every
    payload the handling of an event hands to the Send API (typing
    signal, text or quick replies) is addressed to the sender of that
    event. *)
Theorem every_payload_goes_to_the_sender {JN : JsNumber} {RT : Runtime}
    (cfg : config) (net : network) (event : messaging_event) :
  Forall (addressed_to (sender_id event)) (handle_event cfg net event).
Proof.
  destruct (handle_event_cases cfg net event)
    as [(pre & o & Hq & ->) | [-> | [(pre & url & Hq & ->) | (pre & url & s & Hq & ->)]]].
  - apply (quiet_steps o Hq).
  - repeat constructor.
  - apply Forall_app. split.
    + rewrite map_app. apply Forall_app. split; [|repeat constructor].
      pose proof (quiet_steps (Normal tt) Hq) as (H & _).
      unfold run in H. cbn [trace outcome fst snd] in H. now rewrite app_nil_r in H.
    + unfold after_fetch. destruct (fetch_result net url) as [r|]; [|constructor].
      apply Forall_cons; [exact I | apply httpGet_callback_effects].
  - apply Forall_app. split.
    + rewrite map_app. apply Forall_app. split; [|repeat constructor].
      pose proof (quiet_steps (Normal tt) Hq) as (H & _).
      unfold run in H. cbn [trace outcome fst snd] in H. now rewrite app_nil_r in H.
    + unfold after_search. destruct (search_result net url) as [r|]; [|constructor].
      apply Forall_cons; [exact I | apply search_callback_effects].
Qed.

(** X5. Whatever the event and whatever the network answers, the
    handling of one event makes at most one request (a search or a page
    fetch, never both) and delivers at most one message to the user. *)
Theorem one_request_one_message_at_most {JN : JsNumber} {RT : Runtime}
    (cfg : config) (net : network) (event : messaging_event) :
  List.length (requests (signals (handle_event cfg net event))) <= 1 /\
  List.length (delivered (handle_event cfg net event)) <= 1.
Proof.
  assert (P : forall pre, Forall (quiet (sender_id event)) pre ->
                delivered (map Did pre) = [] /\ requests (signals (map Did pre)) = []).
  { intros pre Hq. pose proof (quiet_steps (Normal tt) Hq) as (_ & H1 & H2).
    unfold run in H1, H2. cbn [trace outcome fst snd] in H1, H2.
    rewrite app_nil_r in H1, H2. now split. }
  destruct (handle_event_cases cfg net event)
    as [(pre & o & Hq & ->) | [-> | [(pre & url & Hq & ->) | (pre & url & s & Hq & ->)]]].
  - destruct (quiet_steps o Hq) as (_ & -> & ->). simpl. lia.
  - split; simpl; lia.
  - destruct (P pre Hq) as [Hd Hr].
    rewrite signals_app, delivered_app, !map_app, signals_app, delivered_app.
    unfold requests in *. rewrite !filter_app, Hd, Hr.
    unfold after_fetch. destruct (fetch_result net url) as [r|]; [|simpl; lia].
    change (signals (FetchReplied r :: ?l)) with (FetchCompleted :: signals l).
    change (delivered (FetchReplied r :: ?l)) with (delivered l).
    rewrite signals_httpGet_callback.
    pose proof (proj2 (httpGet_callback_effects (sender_id event) url r)).
    simpl. lia.
  - destruct (P pre Hq) as [Hd Hr].
    rewrite signals_app, delivered_app, !map_app, signals_app, delivered_app.
    unfold requests in *. rewrite !filter_app, Hd, Hr.
    unfold after_search. destruct (search_result net url) as [r|]; [|simpl; lia].
    change (signals (SearchReplied r :: ?l)) with (SearchCompleted :: signals l).
    change (delivered (SearchReplied r :: ?l)) with (delivered l).
    pose proof (proj2 (search_callback_effects (sender_id event) s r)).
    destruct r as [chunks | err_message]; cbn [search_callback] in *.
    + rewrite signals_search_on_end. simpl. lia.
    + rewrite signals_search_on_error. destruct console_err_is_function; simpl; lia.
Qed.

(** ** The length cap, on both paths *)

Lemma first_chars_at_most (n : nat) (s : string) : String.length (first_chars n s) <= n.
Proof.
  unfold first_chars. revert s.
  induction n as [|n IH]; intros s; [reflexivity|].
  destruct s as [|c s]; simpl; [lia|].
  specialize (IH s). lia.
Qed.

Lemma capped_text_at_most (s : string) :
  String.length (if (String.length s <? 2000)%nat then s else substring 0 2000 s) <= 2000.
Proof.
  destruct (Nat.ltb_spec (String.length s) 2000); [lia|].
  rewrite substring_first_chars. apply first_chars_at_most.
Qed.

Lemma capped_text_first_chars (s : string) :
  (if (String.length s <? 2000)%nat then s else substring 0 2000 s) = first_chars 2000 s.
Proof.
  destruct (Nat.ltb_spec (String.length s) 2000).
  - symmetry. apply first_chars_all. lia.
  - apply substring_first_chars.
Qed.

Ltac expose_delivered :=
  cbn [sendQuickReply sendTextMessage callSendAPI emit bind try_catch throw app
       run trace outcome fst snd map flat_map delivered delivered_of].

Ltac one_text H :=
  expose_delivered;
  first [apply Forall_nil | apply Forall_cons; [exact H | apply Forall_nil]].

(** X6. Whatever the response, no message sent by the ['end'] handler of
    a search and no message sent by the callback of a page fetch has a
    text of more than 2000 characters. *)
Theorem replies_within_2000_characters {JN : JsNumber} {RT : Runtime}
    (senderID url : value) (messageText : string) (chunks : list string)
    (reply : fetch_reply) :
  Forall (fun d => String.length (text_of d) <= 2000)
         (delivered (run (search_on_end senderID messageText chunks))) /\
  Forall (fun d => String.length (text_of d) <= 2000)
         (delivered (run (httpGet_callback senderID url reply))).
Proof.
  assert (Z : String.length ZERO_RESULTS_TEXT <= 2000) by (vm_compute; lia).
  assert (O : String.length OOPS_TEXT <= 2000) by (vm_compute; lia).
  split.
  - unfold search_on_end, console_err. cbv zeta.
    destruct (JSON_parse (received_data chunks)) as [obj | e]; step_js.
    + destruct (get_prop obj K_items) as [items | e]; step_js.
      * destruct (not_loosely_null items).
        -- destruct (array_elements items) as [elements | e]; step_js.
           ++ destruct (forEach elements initial_state) as [st | e]; step_js.
              ** pose proof (capped_text_at_most (total st)) as C.
                 destruct (String.length (total st) <? 2000)%nat;
                   one_text C.
              ** destruct console_err_is_function; one_text O.
           ++ destruct console_err_is_function; one_text O.
        -- one_text Z.
      * destruct console_err_is_function; one_text O.
    + destruct console_err_is_function; one_text O.
  - destruct reply as [m | code body]; cbn [httpGet_callback]; [expose_delivered; constructor|].
    destruct (code =? 200)%Z; [|constructor].
    step_js.
    pose proof (capped_text_at_most (sanitizeHtml body)) as C.
    destruct (String.length (sanitizeHtml body) <? 2000)%nat; one_text C.
Qed.

(** X7. When the GET of a page answers with status 200, the callback
    sends the sender exactly one plain-text message: the first 2000
    characters of the sanitized body (the whole of it when shorter). *)
Theorem fetched_page_delivered_as_text {JN : JsNumber} {RT : Runtime}
    (senderID url : value) (body : string) :
  httpGet_callback senderID url (FetchResponse 200 body)
  = ([ ConsoleLog [VStr "httpGet: Successfully received response from: %s"; url];
       CallSendAPI (TextMessage senderID (first_chars 2000 (sanitizeHtml body))
                      "DEVELOPER_DEFINED_METADATA") ],
     Normal tt).
Proof.
  cbn [httpGet_callback Z.eqb Pos.eqb]. step_js.
  rewrite <- (capped_text_first_chars (sanitizeHtml body)).
  destruct (String.length (sanitizeHtml body) <? 2000)%nat; reflexivity.
Qed.

(** ** Responses the loop cannot format *)

Lemma search_on_end_caught {JN : JsNumber} {RT : Runtime}
    (senderID : value) (messageText : string) (chunks : list string)
    (obj items : value) (e : exn) :
  JSON_parse (received_data chunks) = Normal obj ->
  get_prop obj K_items = Normal items ->
  not_loosely_null items = true ->
  cbind (array_elements items) (fun elements => forEach elements initial_state) = Abrupt e ->
  search_on_end senderID messageText chunks
  = if console_err_is_function
    then ((end_prefix senderID (received_data chunks) ++
           [ ConsoleErr [VStr ("Error: " ++ exn_message e)];
             CallSendAPI (TextMessage senderID OOPS_TEXT "DEVELOPER_DEFINED_METADATA") ])%list,
          Normal tt)
    else (end_prefix senderID (received_data chunks),
          Abrupt (TypeError "console.err is not a function")).
Proof.
  intros Hp Hi Hn Hf. unfold search_on_end, console_err. rewrite Hp. step_js.
  rewrite Hi. step_js. rewrite Hn.
  destruct (array_elements items) as [elements | e']; cbn [cbind] in Hf; step_js.
  - rewrite Hf. step_js. destruct console_err_is_function; reflexivity.
  - injection Hf as ->. destruct console_err_is_function; reflexivity.
Qed.

Lemma forEach_null_item {JN : JsNumber} (elements : list value) :
  In VNull elements ->
  forall st, exists e, forEach elements st = Abrupt e.
Proof.
  induction elements as [|item rest IH]; intros Hin st; [destruct Hin|].
  cbn [forEach]. destruct Hin as [-> | Hin].
  - eexists. reflexivity.
  - destruct (format_item st item) as [st' | e]; cbn [cbind].
    + apply (IH Hin).
    + eexists. reflexivity.
Qed.

(** X8. If one item of the items list is [null], the loop throws and
    nothing of the results is delivered, not even the items before it:
    the handler takes the [catch] path, whose only reply is the fixed
    error text, sent if the [console.err] call returns. *)
Theorem null_item_discards_the_results {JN : JsNumber} {RT : Runtime}
    (senderID : value) (messageText : string) (chunks : list string)
    (obj : value) (elements : list value) :
  JSON_parse (received_data chunks) = Normal obj ->
  get_prop obj K_items = Normal (VArr elements) ->
  In VNull elements ->
  delivered (run (search_on_end senderID messageText chunks))
  = if console_err_is_function
    then [TextMessage senderID OOPS_TEXT "DEVELOPER_DEFINED_METADATA"]
    else [].
Proof.
  intros Hp Hi Hin.
  destruct (forEach_null_item elements Hin initial_state) as [e He].
  rewrite (search_on_end_caught senderID messageText chunks Hp Hi eq_refl (e := e) He).
  destruct console_err_is_function; reflexivity.
Qed.

Lemma null_item_discards_the_results_witness :
  delivered (run (@search_on_end _ node_runtime_more (VStr "USER") "cats" [BODY_NULL_ITEM]))
  = [].
Proof.
  exact (@null_item_discards_the_results _ node_runtime_more (VStr "USER") "cats"
           [BODY_NULL_ITEM] (VObj [("items", VArr [json_item "A" "B" "L1"; VNull])])
           [json_item "A" "B" "L1"; VNull]
           eq_refl eq_refl (or_intror (or_introl eq_refl))).
Defined.

(** X9. If [items] is present and is neither [null] nor an array (a
    string, a number, a boolean or an object), it has no [forEach]: the
    handler takes the [catch] path and no quick-reply message is sent. *)
Theorem items_not_an_array_is_an_error {JN : JsNumber} {RT : Runtime}
    (senderID : value) (messageText : string) (chunks : list string) (obj items : value) :
  JSON_parse (received_data chunks) = Normal obj ->
  get_prop obj K_items = Normal items ->
  not_loosely_null items = true ->
  (forall elements, items <> VArr elements) ->
  delivered (run (search_on_end senderID messageText chunks))
  = if console_err_is_function
    then [TextMessage senderID OOPS_TEXT "DEVELOPER_DEFINED_METADATA"]
    else [].
Proof.
  intros Hp Hi Hn Ha.
  assert (He : cbind (array_elements items) (fun elements => forEach elements initial_state)
               = Abrupt (TypeError "obj.items.forEach is not a function")).
  { destruct items; try reflexivity; try discriminate Hn. now elim (Ha elements). }
  rewrite (search_on_end_caught senderID messageText chunks Hp Hi Hn He).
  destruct console_err_is_function; reflexivity.
Qed.

Lemma items_not_an_array_is_an_error_witness :
  delivered (run (@search_on_end _ node_runtime_more (VStr "USER") "cats"
                    [BODY_STRING_ITEMS]))
  = [].
Proof.
  apply (@items_not_an_array_is_an_error _ node_runtime_more (VStr "USER") "cats"
           [BODY_STRING_ITEMS] (VObj [("items", VStr "none")]) (VStr "none")).
  - reflexivity.
  - reflexivity.
  - reflexivity.
  - intros elements H. discriminate H.
Defined.


(** ** Start-up *)

Lemma load_config_field {JN : JsNumber} (env : environment) (file : config_file)
    (c : config) (v : config_value) :
  load_config env file = Normal c ->
  setting env file (env_name v) (file_key v) = Normal (config_field v c).
Proof.
  unfold load_config. intros H.
  destruct (setting env file "MESSENGER_APP_SECRET" "appSecret") as [a|] eqn:Ea;
    [|discriminate H].
  destruct (setting env file "MESSENGER_VALIDATION_TOKEN" "validationToken") as [b|] eqn:Eb;
    [|discriminate H].
  destruct (setting env file "MESSENGER_PAGE_ACCESS_TOKEN" "pageAccessToken") as [p|] eqn:Ep;
    [|discriminate H].
  destruct (setting env file "SERVER_URL" "serverURL") as [u|] eqn:Eu; [|discriminate H].
  destruct (setting env file "SEARCH_URL" "searchURL") as [q|] eqn:Eq; [|discriminate H].
  cbn [cbind] in H. injection H as <-.
  destruct v; assumption.
Qed.

Lemma started_config {JN : JsNumber} (env : environment) (file : config_file) (c : config) :
  startup env file = Started c ->
  load_config env file = Normal c /\
  truthy (APP_SECRET c) && truthy (VALIDATION_TOKEN c)
    && truthy (PAGE_ACCESS_TOKEN c) && truthy (SERVER_URL c) = true.
Proof.
  unfold startup. destruct (load_config env file) as [c' | e]; [|discriminate].
  destruct (truthy (APP_SECRET c') && truthy (VALIDATION_TOKEN c')
            && truthy (PAGE_ACCESS_TOKEN c') && truthy (SERVER_URL c')) eqn:E;
    cbn [negb]; intros H; [|discriminate H].
  injection H as <-. now split.
Qed.

Lemma started_values {JN : JsNumber}
    (env : environment) (file : config_file) (c : config) (v : config_value) :
  startup env file = Started c ->
  setting env file (env_name v) (file_key v) = Normal (config_field v c) /\
  (v <> SearchBaseUrl -> truthy (config_field v c) = true).
Proof.
  intros H. destruct (started_config env file H) as [Hl Ht].
  split; [exact (load_config_field env file v Hl)|].
  apply andb_prop in Ht. destruct Ht as [Ht Hs].
  apply andb_prop in Ht. destruct Ht as [Ht Hp].
  apply andb_prop in Ht. destruct Ht as [Ha Hv].
  destruct v; intros Hn; try assumption. now elim Hn.
Qed.

(** X10. On a server that has started, each configuration value is the
    string of its environment variable when that variable is set and not
    empty, and otherwise the value the configuration file defines for
    its key; and the shared secret, the verification token, the access
    token and the server URL are truthy.  (The search URL is loaded the
    same way but is not tested.) *)
Theorem started_server_has_its_credentials {JN : JsNumber}
    (env : environment) (file : config_file) (c : config) (v : config_value) :
  startup env file = Started c ->
  (forall s, env (env_name v) = Some s -> s <> "" -> config_field v c = VStr s) /\
  (env (env_name v) = None \/ env (env_name v) = Some "" ->
   own_property file (file_key v) = Some (config_field v c)) /\
  (v <> SearchBaseUrl -> truthy (config_field v c) = true).
Proof.
  intros H. destruct (started_values env file v H) as [Hs Ht].
  unfold setting, config_get in Hs.
  split; [|split; [|exact Ht]].
  - intros s He Hn. rewrite He, (truthy_nonempty Hn) in Hs. now injection Hs.
  - intros He.
    assert (F : match own_property file (file_key v) with
                | Some x => Normal x
                | None => Abrupt (Error ("Configuration property " ++ DQUOTE ++ file_key v
                                         ++ DQUOTE ++ " is not defined"))
                end = Normal (config_field v c)).
    { destruct He as [He | He]; rewrite He in Hs; exact Hs. }
    destruct (own_property file (file_key v)) as [x|]; [|discriminate F].
    now injection F as ->.
Qed.

Lemma started_server_has_its_credentials_witness :
  startup secret_only_environment full_file = Started mixed_config /\
  config_field SharedSecret mixed_config = VStr "from-environment" /\
  own_property full_file (file_key VerificationToken)
    = Some (config_field VerificationToken mixed_config) /\
  truthy (config_field ServerBaseUrl mixed_config) = true.
Proof.
  assert (S : startup secret_only_environment full_file = Started mixed_config)
    by reflexivity.
  split; [exact S|].
  split; [|split].
  - apply (proj1 (started_server_has_its_credentials
                    secret_only_environment full_file SharedSecret S)
             "from-environment").
    + reflexivity.
    + intros H. discriminate H.
  - apply (proj1 (proj2 (started_server_has_its_credentials
                           secret_only_environment full_file VerificationToken S))).
    left. reflexivity.
  - apply (proj2 (proj2 (started_server_has_its_credentials
                           secret_only_environment full_file ServerBaseUrl S))).
    intros H. discriminate H.
Defined.

(** X11. With the five environment variables set to non-empty strings,
    the server starts with exactly these strings, whatever the
    configuration file holds, and also with no configuration at all:
    [config.get] is not called. *)
Theorem environment_alone_starts_the_server {JN : JsNumber}
    (env : environment) (file : config_file) (a t p u q : string) :
  env "MESSENGER_APP_SECRET" = Some a -> a <> "" ->
  env "MESSENGER_VALIDATION_TOKEN" = Some t -> t <> "" ->
  env "MESSENGER_PAGE_ACCESS_TOKEN" = Some p -> p <> "" ->
  env "SERVER_URL" = Some u -> u <> "" ->
  env "SEARCH_URL" = Some q -> q <> "" ->
  startup env file
  = Started {| APP_SECRET := VStr a; VALIDATION_TOKEN := VStr t;
               PAGE_ACCESS_TOKEN := VStr p; SERVER_URL := VStr u;
               SEARCH_URL := VStr q |}.
Proof.
  intros Ea Ha Et Ht Ep Hp Eu Hu Eq Hq.
  unfold startup, load_config, setting.
  rewrite Ea, Et, Ep, Eu, Eq.
  rewrite !truthy_nonempty by assumption.
  cbn [cbind APP_SECRET VALIDATION_TOKEN PAGE_ACCESS_TOKEN SERVER_URL].
  rewrite !truthy_nonempty by assumption.
  reflexivity.
Qed.

Lemma environment_alone_starts_the_server_witness :
  startup full_environment [] = Started sample_config.
Proof.
  apply (environment_alone_starts_the_server full_environment []
           (a := "secret") (t := "token") (p := "access")
           (u := "https://bot.example") (q := "https://search.example/?q="));
    first [reflexivity | intros H; discriminate H].
Defined.

Lemma setting_abrupt_refuses {JN : JsNumber} (env : environment) (file : config_file)
    (v : config_value) (e : exn) :
  setting env file (env_name v) (file_key v) = Abrupt e ->
  refuses_to_start (startup env file) = true.
Proof.
  intros E. unfold startup.
  destruct (load_config env file) as [c | e'] eqn:L; [|reflexivity].
  rewrite (load_config_field env file v L) in E. discriminate E.
Qed.

(** X12. An environment variable set to the empty string counts as not
    set: if the configuration file does not define the value either, the
    process does not start. *)
Theorem empty_variable_counts_as_missing {JN : JsNumber}
    (env : environment) (file : config_file) (v : config_value) :
  env (env_name v) = Some "" ->
  own_property file (file_key v) = None ->
  refuses_to_start (startup env file) = true.
Proof.
  intros He Hf.
  apply (setting_abrupt_refuses env file v
           (e := Error ("Configuration property " ++ DQUOTE ++ file_key v ++ DQUOTE
                        ++ " is not defined"))).
  unfold setting, config_get. rewrite He, Hf. reflexivity.
Qed.

Lemma empty_variable_counts_as_missing_witness :
  refuses_to_start
    (startup (fun name => if String.eqb name "SEARCH_URL" then Some "" else None)
             file_without_search_url) = true.
Proof.
  apply (empty_variable_counts_as_missing
           (fun name => if String.eqb name "SEARCH_URL" then Some "" else None)
           file_without_search_url SearchBaseUrl); reflexivity.
Defined.

(** X13. If the environment does not set one of the four tested values
    and the configuration file defines it with a falsy value (an empty
    string, [0], [false] or [null]), the process does not start. *)
Theorem falsy_file_value_refuses_to_start {JN : JsNumber}
    (env : environment) (file : config_file) (v : config_value) (x : value) :
  v <> SearchBaseUrl ->
  env (env_name v) = None ->
  own_property file (file_key v) = Some x ->
  truthy x = false ->
  refuses_to_start (startup env file) = true.
Proof.
  intros Hv He Hf Hx.
  destruct (startup env file) as [c| |e] eqn:S; try reflexivity.
  destruct (started_values env file v S) as [Hs Ht].
  unfold setting, config_get in Hs. rewrite He, Hf in Hs. injection Hs as ->.
  rewrite (Ht Hv) in Hx. discriminate Hx.
Qed.

Lemma falsy_file_value_refuses_to_start_witness :
  refuses_to_start
    (startup empty_environment
       [ ("appSecret", VStr "secret"); ("validationToken", VNull);
         ("pageAccessToken", VStr "access"); ("serverURL", VStr "https://bot.example");
         ("searchURL", VStr "https://search.example/?q=") ]) = true.
Proof.
  apply (falsy_file_value_refuses_to_start empty_environment
           [ ("appSecret", VStr "secret"); ("validationToken", VNull);
             ("pageAccessToken", VStr "access"); ("serverURL", VStr "https://bot.example");
             ("searchURL", VStr "https://search.example/?q=") ]
           (v := VerificationToken) (x := VNull)).
  - intros H. discriminate H.
  - reflexivity.
  - reflexivity.
  - reflexivity.
Defined.

(** ** GET /webhook *)

(** X14. On a server that has started, the verification request is
    answered with status 200 exactly when [hub.mode] is the string
    "subscribe" and [hub.verify_token] is a non-empty string equal to the
    configured token; the body of that answer is [hub.challenge].  Every
    other request, and so every request without a token, is answered
    with 403. *)
Theorem verification_needs_the_token {JN : JsNumber}
    (env : environment) (file : config_file) (c : config) (query : verification_query) :
  startup env file = Started c ->
  (hub_mode query = QString "subscribe" /\
   exists s, s <> "" /\ hub_verify_token query = QString s /\ VALIDATION_TOKEN c = VStr s)
  /\ snd (webhook_get c query) = Sent200 (hub_challenge query)
  \/
  ~ (hub_mode query = QString "subscribe" /\
     exists s, hub_verify_token query = QString s /\ VALIDATION_TOKEN c = VStr s)
  /\ snd (webhook_get c query) = SentStatus403.
Proof.
  intros H.
  destruct (started_values env file VerificationToken H) as [_ Ht].
  specialize (Ht ltac:(discriminate)). cbn [config_field] in Ht.
  unfold webhook_get.
  destruct (hub_mode query) as [|m|] eqn:Hm;
    try (right; split; [intros [E _]; discriminate E | reflexivity]).
  destruct (String.eqb_spec m "subscribe") as [-> | Hn];
    [|right; split; [intros [E _]; injection E as E; contradiction | reflexivity]].
  cbn [andb].
  destruct (hub_verify_token query) as [|s|] eqn:Hq;
    destruct (VALIDATION_TOKEN c) as [| |b|n|t|l|p|f] eqn:Hv; cbn [strictly_equals];
    try (right; split; [intros (_ & s' & E1 & E2); discriminate | reflexivity]).
  - discriminate Ht.
  - destruct (String.eqb_spec s t) as [-> | Hn].
    + left. split; [|reflexivity]. split; [reflexivity|].
      exists t. repeat split.
      intros ->. discriminate Ht.
    + right. split; [|reflexivity].
      intros (_ & s' & E1 & E2). injection E1 as <-. injection E2 as <-. contradiction.
Qed.

Lemma verification_needs_the_token_witness :
  snd (webhook_get sample_config
         {| hub_mode := QString "subscribe"; hub_verify_token := QAbsent;
            hub_challenge := QString "1158201444" |}) = SentStatus403.
Proof.
  destruct (verification_needs_the_token full_environment []
              (c := sample_config)
              {| hub_mode := QString "subscribe"; hub_verify_token := QAbsent;
                 hub_challenge := QString "1158201444" |} eq_refl)
    as [[(_ & s & _ & E & _) _] | [_ H]].
  - discriminate E.
  - exact H.
Defined.

(** ** The signature check *)

Lemma split_equals_cons (s : string) : exists first others, split_equals s = first :: others.
Proof.
  destruct s as [|c s]; cbn [split_equals]; [eexists _, _; reflexivity|].
  destruct (Ascii.eqb c "="); [eexists _, _; reflexivity|].
  destruct (split_equals s); eexists _, _; reflexivity.
Qed.

(** A text without "=" is the first field, up to the next "=". *)
Lemma split_equals_field (m rest : string) :
  no_equals m = true ->
  split_equals (m ++ "=" ++ rest) = m :: split_equals rest.
Proof.
  change ("=" ++ rest) with (String "="%char rest).
  induction m as [|c m IH]; intros H; [reflexivity|].
  cbn [no_equals] in H. apply andb_prop in H. destruct H as [Hc Hm].
  cbn [append split_equals].
  destruct (Ascii.eqb c "="); [discriminate Hc|].
  now rewrite (IH Hm).
Qed.

Lemma split_equals_plain (m : string) : no_equals m = true -> split_equals m = [m].
Proof.
  induction m as [|c m IH]; intros H; [reflexivity|].
  cbn [no_equals] in H. apply andb_prop in H. destruct H as [Hc Hm].
  cbn [split_equals].
  destruct (Ascii.eqb c "="); [discriminate Hc|].
  now rewrite (IH Hm).
Qed.

Lemma append_nonempty (m rest : string) : m ++ "=" ++ rest <> "".
Proof. destruct m; discriminate. Qed.

(** X15. For a header of the form method, "=", hash, optionally followed
    by "=" and anything, the check returns if the hash is the HMAC of
    the raw body under the shared secret and throws otherwise: the method
    named in the header is not looked at, and neither is what follows a
    second "=". *)
Theorem signature_decided_by_the_hash_field {JN : JsNumber} {CR : Crypto}
    (cfg : config) (key buf method hash tail : string) :
  APP_SECRET cfg = VStr key ->
  no_equals method = true ->
  no_equals hash = true ->
  tail = "" \/ (exists t, tail = "=" ++ t) ->
  verifyRequestSignature cfg (Some (method ++ "=" ++ hash ++ tail)) buf
  = if String.eqb hash (hmac_sha1_hex key buf)
    then ([], Normal tt)
    else ([], Abrupt (Error "Couldn't validate the request signature.")).
Proof.
  intros Hk Hm Hh Ht.
  unfold verifyRequestSignature.
  rewrite (truthy_nonempty (@append_nonempty method (hash ++ tail))). cbv zeta.
  rewrite (@split_equals_field method (hash ++ tail) Hm), Hk.
  assert (E : exists others, split_equals (hash ++ tail) = hash :: others).
  { destruct Ht as [-> | [t ->]].
    - rewrite append_nil_r, (@split_equals_plain hash Hh). eexists. reflexivity.
    - rewrite (@split_equals_field hash t Hh). eexists. reflexivity. }
  destruct E as [others ->].
  cbn [nth_error bind ret].
  destruct (String.eqb hash (hmac_sha1_hex key buf)); reflexivity.
Qed.

Lemma signature_decided_by_the_hash_field_witness :
  verifyRequestSignature sample_config
    (Some ("md5" ++ "=" ++ "2fd4e1c67a2d28fced849ee1bb76e7391b93eb12" ++ "=ignored"))
    "{}"
  = ([], Normal tt).
Proof.
  exact (@signature_decided_by_the_hash_field _ _ sample_config "secret" "{}"
           "md5" "2fd4e1c67a2d28fced849ee1bb76e7391b93eb12" "=ignored"
           eq_refl eq_refl eq_refl (or_intror (ex_intro _ "ignored" eq_refl))).
Defined.

(** X16. A non-empty header without "=" is always rejected, also when
    it is the expected hash itself. *)
Theorem header_without_equals_rejected {JN : JsNumber} {CR : Crypto}
    (cfg : config) (key buf s : string) :
  APP_SECRET cfg = VStr key ->
  s <> "" ->
  no_equals s = true ->
  verifyRequestSignature cfg (Some s) buf
  = ([], Abrupt (Error "Couldn't validate the request signature.")).
Proof.
  intros Hk Hs Hn. unfold verifyRequestSignature.
  rewrite (truthy_nonempty Hs). cbv zeta.
  rewrite (@split_equals_plain s Hn), Hk. reflexivity.
Qed.

Lemma header_without_equals_rejected_witness :
  verifyRequestSignature sample_config
    (Some (hmac_sha1_hex "secret" "{}")) "{}"
  = ([], Abrupt (Error "Couldn't validate the request signature.")).
Proof.
  apply (header_without_equals_rejected sample_config (key := "secret")).
  - reflexivity.
  - intros H. discriminate H.
  - reflexivity.
Defined.

(** ** POST /webhook *)

Lemma bind_lift_normal {JN : JsNumber} {A B : Type} (a : A) (k : A -> js B) :
  bind (lift (Normal a)) k = k a.
Proof. unfold bind, lift. destruct (k a). reflexivity. Qed.

Lemma get_field_not_nullish {JN : JsNumber} (v : value) (name : string) :
  v <> VUndefined -> v <> VNull -> get_field v name = Normal (field v name).
Proof.
  intros Hu Hn. destruct v; try reflexivity; try contradiction.
  cbn [get_field field]. now destruct (own_property properties name).
Qed.

Lemma get_field_truthy {JN : JsNumber} (v : value) (name : string) :
  truthy v = true -> get_field v name = Normal (field v name).
Proof.
  intros H. apply get_field_not_nullish; intros ->; discriminate H.
Qed.

Lemma field_truthy_not_nullish {JN : JsNumber} (v : value) (name : string) :
  truthy (field v name) = true -> v <> VUndefined /\ v <> VNull.
Proof. destruct v; cbn [field truthy]; intros H; split; discriminate. Qed.

Lemma for_each_normal {JN : JsNumber} (body : value -> js unit) (l : list value) :
  Forall (fun x => outcome (body x) = Normal tt) l ->
  for_each l body = (flat_map (fun x => trace (body x)) l, Normal tt).
Proof.
  induction 1 as [|x l Hx _ IH]; [reflexivity|].
  cbn [for_each flat_map]. rewrite IH.
  destruct (body x) as [t o]. cbn [outcome snd] in Hx. subst o. reflexivity.
Qed.

Lemma for_each_abort {JN : JsNumber} (body : value -> js unit)
    (before after : list value) (x : value) (e : exn) :
  Forall (fun y => outcome (body y) = Normal tt) before ->
  outcome (body x) = Abrupt e ->
  for_each (before ++ x :: after) body
  = ((flat_map (fun y => trace (body y)) before ++ trace (body x))%list, Abrupt e).
Proof.
  intros Hb Hx. induction Hb as [|y before Hy _ IH].
  - cbn [app for_each flat_map]. destruct (body x) as [t o].
    cbn [outcome snd] in Hx. subst o. reflexivity.
  - cbn [app for_each flat_map]. rewrite IH.
    destruct (body y) as [t o]. cbn [outcome snd] in Hy. subst o.
    cbn [bind trace fst]. now rewrite app_assoc.
Qed.

Lemma page_entry_events {JN : JsNumber} (cfg : config) (pageEntry : value)
    (events : list value) :
  get_field pageEntry "messaging" = Normal (VArr events) ->
  page_entry cfg pageEntry = for_each events (dispatch cfg).
Proof.
  intros H. unfold page_entry.
  assert (N : pageEntry <> VUndefined /\ pageEntry <> VNull).
  { split; intros ->; discriminate H. }
  destruct N as [Nu Nn].
  rewrite !(get_field_not_nullish _ Nu Nn), !bind_lift_normal.
  rewrite (get_field_not_nullish _ Nu Nn) in H. injection H as ->.
  cbn [as_array]. now rewrite bind_lift_normal.
Qed.

(** The entries of a body, each with the events of its [messaging]. *)
Lemma entries_events {JN : JsNumber} (cfg : config) (entries : list value)
    (batches : list (list value)) :
  Forall2 (fun entry events => get_field entry "messaging" = Normal (VArr events))
          entries batches ->
  Forall2 (fun entry events => page_entry cfg entry = for_each events (dispatch cfg))
          entries batches.
Proof.
  induction 1 as [|entry events entries batches H _ IH]; constructor; [|exact IH].
  now apply page_entry_events.
Qed.

(** X18. When the body is a page subscription and the handling of every
    event completes, the events are handled one after the other in the
    order of the body (entry by entry, and event by event within an
    entry), and the route then answers with status 200. *)
Theorem batch_handled_in_order {JN : JsNumber}
    (cfg : config) (data object : value) (entries : list value)
    (batches : list (list value)) :
  get_field data "object" = Normal object ->
  loosely_equals_string object "page" = Normal true ->
  get_field data "entry" = Normal (VArr entries) ->
  Forall2 (fun entry events => get_field entry "messaging" = Normal (VArr events))
          entries batches ->
  Forall (Forall (fun event => outcome (dispatch cfg event) = Normal tt)) batches ->
  webhook_post cfg data
  = (flat_map (flat_map (fun event => trace (dispatch cfg event))) batches,
     Normal SentStatus200).
Proof.
  intros Ho Hp He Hm Hn.
  unfold webhook_post. rewrite Ho, bind_lift_normal, Hp, bind_lift_normal.
  rewrite He, bind_lift_normal. cbn [as_array]. rewrite bind_lift_normal.
  apply (entries_events cfg) in Hm.
  assert (E : for_each entries (page_entry cfg)
              = (flat_map (flat_map (fun event => trace (dispatch cfg event))) batches,
                 Normal tt)).
  { clear Ho Hp He. revert Hn.
    induction Hm as [|entry events entries batches H _ IH]; intros Hn; [reflexivity|].
    inversion Hn as [|? ? Hev Hrest]; subst.
    cbn [for_each flat_map]. rewrite H, (for_each_normal _ Hev), (IH Hrest).
    reflexivity. }
  rewrite E. cbn [bind ret]. now rewrite app_nil_r.
Qed.

Lemma batch_handled_in_order_witness :
  webhook_post sample_config (page_body [delivery_event; optin_and_message_event])
  = ((trace (dispatch sample_config delivery_event)
      ++ trace (dispatch sample_config optin_and_message_event))%list,
     Normal SentStatus200).
Proof.
  rewrite (@batch_handled_in_order _ sample_config
             (page_body [delivery_event; optin_and_message_event]) (VStr "page")
             [page_entry_value [delivery_event; optin_and_message_event]]
             [[delivery_event; optin_and_message_event]]).
  - reflexivity.
  - reflexivity.
  - reflexivity.
  - reflexivity.
  - repeat constructor.
  - repeat constructor.
Defined.

(** X19. When the handling of an event throws, the exception leaves both
    loops: the events after it in the body, of the same entry and of the
    entries that follow, are not handled, and the route does not answer
    with status 200. *)
Theorem exception_aborts_the_batch {JN : JsNumber}
    (cfg : config) (data object : value) (entries : list value)
    (handled : list (list value)) (before after : list value) (bad : value)
    (skipped : list (list value)) (e : exn) :
  get_field data "object" = Normal object ->
  loosely_equals_string object "page" = Normal true ->
  get_field data "entry" = Normal (VArr entries) ->
  Forall2 (fun entry events => get_field entry "messaging" = Normal (VArr events))
          entries (handled ++ (before ++ bad :: after) :: skipped)%list ->
  Forall (Forall (fun event => outcome (dispatch cfg event) = Normal tt)) handled ->
  Forall (fun event => outcome (dispatch cfg event) = Normal tt) before ->
  outcome (dispatch cfg bad) = Abrupt e ->
  webhook_post cfg data
  = ((flat_map (flat_map (fun event => trace (dispatch cfg event))) handled
      ++ flat_map (fun event => trace (dispatch cfg event)) before
      ++ trace (dispatch cfg bad))%list,
     Abrupt e).
Proof.
  intros Ho Hp He Hm Hn Hb Hx.
  unfold webhook_post. rewrite Ho, bind_lift_normal, Hp, bind_lift_normal.
  rewrite He, bind_lift_normal. cbn [as_array]. rewrite bind_lift_normal.
  apply (entries_events cfg) in Hm.
  assert (E : for_each entries (page_entry cfg)
              = ((flat_map (flat_map (fun event => trace (dispatch cfg event))) handled
                  ++ flat_map (fun event => trace (dispatch cfg event)) before
                  ++ trace (dispatch cfg bad))%list,
                 Abrupt e)).
  { clear Ho Hp He. revert entries Hm.
    induction Hn as [|events handled Hev _ IH]; intros entries Hm.
    - cbn [app flat_map] in *.
      inversion Hm as [|entry ? entries' ? H _]; subst.
      cbn [for_each]. rewrite H, (@for_each_abort _ (dispatch cfg) before after bad e Hb Hx).
      reflexivity.
    - cbn [app] in Hm. inversion Hm as [|entry ? entries' ? H Hrest]; subst.
      cbn [for_each flat_map]. rewrite H, (for_each_normal _ Hev), (IH _ Hrest).
      cbn [bind]. now rewrite app_assoc. }
  rewrite E. reflexivity.
Qed.

Lemma exception_aborts_the_batch_witness :
  webhook_post sample_config
    (page_body [delivery_event; number_text_event; optin_and_message_event])
  = ((trace (dispatch sample_config delivery_event)
      ++ trace (dispatch sample_config (number_text_event)))%list,
     Abrupt (TypeError "messageText.startsWith is not a function")).
Proof.
  rewrite (@exception_aborts_the_batch _ sample_config
             (page_body [delivery_event; number_text_event; optin_and_message_event])
             (VStr "page")
             [page_entry_value [delivery_event; number_text_event;
                                optin_and_message_event]]
             [] [delivery_event] [optin_and_message_event] (number_text_event) []
             (TypeError "messageText.startsWith is not a function")).
  - reflexivity.
  - reflexivity.
  - reflexivity.
  - reflexivity.
  - repeat constructor.
  - constructor.
  - repeat constructor.
  - reflexivity.
Defined.

(** ** The kinds of messaging events *)

(** X20. An event with a truthy [optin] is an authentication, whatever
    else it carries: the sender is sent the one text "Authentication
    successful", and a [message] of the same event is not looked at (no
    typing signal, no search, no page fetch). *)
Theorem optin_takes_precedence {JN : JsNumber}
    (cfg : config) (event senderID recipientID : value) :
  truthy (field event "optin") = true ->
  get_field (field event "sender") "id" = Normal senderID ->
  get_field (field event "recipient") "id" = Normal recipientID ->
  dispatch cfg event
  = ([ ConsoleLog [VStr "Received authentication for user %d and page %d with pass through param '%s' at %d";
                   senderID; recipientID; field (field event "optin") "ref";
                   field event "timestamp"];
       CallSendAPI (TextMessage senderID "Authentication successful"
                      "DEVELOPER_DEFINED_METADATA") ],
     Normal tt).
Proof.
  intros Ho Hs Hr.
  destruct (field_truthy_not_nullish event "optin" Ho) as [Nu Nn].
  unfold dispatch, receivedAuthentication.
  rewrite !(get_field_not_nullish _ Nu Nn), bind_lift_normal, Ho.
  repeat first [ rewrite bind_lift_normal | rewrite Hs | rewrite Hr
               | rewrite (@get_field_truthy _ (field event "optin") "ref" Ho) ].
  reflexivity.
Qed.

Lemma optin_takes_precedence_witness :
  sent (trace (dispatch sample_config optin_and_message_event))
  = [TextMessage (VStr "USER") "Authentication successful" "DEVELOPER_DEFINED_METADATA"].
Proof.
  rewrite (@optin_takes_precedence _ sample_config optin_and_message_event
             (VStr "USER") (VStr "PAGE")); reflexivity.
Defined.

(** X21. An event that is neither an authentication nor a message (a
    delivery confirmation, a postback, a read receipt, an account
    linking, or anything else) is written to the console in one call and
    has no other effect. *)
Theorem notification_only_logged {JN : JsNumber} (cfg : config) (event : value) :
  event <> VUndefined ->
  event <> VNull ->
  truthy (field event "optin") = false ->
  truthy (field event "message") = false ->
  exists args, dispatch cfg event = ([ConsoleLog args], Normal tt).
Proof.
  intros Nu Nn Ho Hm. unfold dispatch.
  rewrite !(get_field_not_nullish _ Nu Nn), bind_lift_normal, Ho, bind_lift_normal, Hm.
  destruct (truthy (field event "delivery")); [eexists; reflexivity|].
  destruct (truthy (field event "postback")); [eexists; reflexivity|].
  destruct (truthy (field event "read")); [eexists; reflexivity|].
  destruct (truthy (field event "account_linking")); eexists; reflexivity.
Qed.

Lemma notification_only_logged_witness :
  exists args, dispatch sample_config delivery_event = ([ConsoleLog args], Normal tt).
Proof.
  apply (@notification_only_logged _ sample_config delivery_event);
    first [reflexivity | intros H; discriminate H].
Defined.

(** The route hands [receivedMessage] the fields of the event. *)
Lemma dispatch_message {JN : JsNumber} (cfg : config) (event senderID recipientID : value) :
  truthy (field event "optin") = false ->
  truthy (field event "message") = true ->
  get_field (field event "sender") "id" = Normal senderID ->
  get_field (field event "recipient") "id" = Normal recipientID ->
  dispatch cfg event
  = receivedMessage cfg
      {| sender_id := senderID; recipient_id := recipientID;
         timestamp := field event "timestamp";
         event_message := message_record (field event "message") |}.
Proof.
  intros Ho Hm Hs Hr.
  destruct (field_truthy_not_nullish event "message" Hm) as [Nu Nn].
  unfold dispatch, event_record.
  rewrite !(get_field_not_nullish _ Nu Nn), bind_lift_normal, Ho, bind_lift_normal, Hm.
  cbn [cbind]. rewrite Hs. cbn [cbind]. rewrite Hr. cbn [cbind].
  now rewrite bind_lift_normal.
Qed.

(** X22. A message event without a [sender] (or without a [recipient])
    makes [receivedMessage] throw at its first lines, before it has
    logged or sent anything. *)
Theorem message_without_sender_throws {JN : JsNumber} (cfg : config) (event : value) :
  truthy (field event "optin") = false ->
  truthy (field event "message") = true ->
  field event "sender" = VUndefined \/
  (field event "sender" <> VUndefined /\ field event "sender" <> VNull /\
   field event "recipient" = VUndefined) ->
  exists e, dispatch cfg event = ([], Abrupt e).
Proof.
  intros Ho Hm H.
  destruct (field_truthy_not_nullish event "message" Hm) as [Nu Nn].
  unfold dispatch, event_record.
  rewrite !(get_field_not_nullish _ Nu Nn), bind_lift_normal, Ho, bind_lift_normal, Hm.
  destruct H as [-> | (Su & Sn & ->)].
  - eexists. reflexivity.
  - cbn [cbind]. rewrite (get_field_not_nullish _ Su Sn). eexists. reflexivity.
Qed.

Lemma message_without_sender_throws_witness :
  exists e,
    dispatch sample_config (VObj [("message", VObj [("text", VStr "cats")])])
    = ([], Abrupt e).
Proof.
  apply (@message_without_sender_throws _ sample_config
           (VObj [("message", VObj [("text", VStr "cats")])])).
  - reflexivity.
  - reflexivity.
  - left. reflexivity.
Defined.

(** X23. A body whose [object] is absent, or is a string other than
    "page", is not processed and is not answered: the route takes no
    step and sends no status. *)
Theorem other_object_not_answered {JN : JsNumber} (cfg : config) (data : value) :
  data <> VUndefined ->
  data <> VNull ->
  field data "object" = VUndefined \/
  (exists s, field data "object" = VStr s /\ s <> "page") ->
  webhook_post cfg data = ([], Normal NoAnswer).
Proof.
  intros Nu Nn H. unfold webhook_post.
  rewrite (get_field_not_nullish _ Nu Nn), bind_lift_normal.
  destruct H as [-> | (s & -> & Hs)]; cbn [loosely_equals_string].
  - now rewrite bind_lift_normal.
  - rewrite (proj2 (String.eqb_neq s "page") Hs). now rewrite bind_lift_normal.
Qed.

Lemma other_object_not_answered_witness :
  webhook_post sample_config (VObj [("object", VStr "user"); ("entry", VArr [])])
  = ([], Normal NoAnswer).
Proof.
  apply (@other_object_not_answered _ sample_config
           (VObj [("object", VStr "user"); ("entry", VArr [])])).
  - intros H. discriminate H.
  - intros H. discriminate H.
  - right. exists "user". split; [reflexivity | intros H; discriminate H].
Defined.

(** ** The callback of callSendAPI *)

(** X24. Whatever the Send API answers, the callback writes at most one
    line to the console and does nothing else: a failed send is not
    retried and the user is not told.  The callback returns exactly when
    there is a response whose body is neither undefined nor null; on a
    transport error, where there is no response, it throws. *)
Theorem send_callback_only_logs {JN : JsNumber} {JI : JsIntegers} (reply : send_reply) :
  forallb is_console (trace (callSendAPI_callback reply)) = true /\
  List.length (trace (callSendAPI_callback reply)) <= 1 /\
  (outcome (callSendAPI_callback reply) = Normal tt <->
   exists statusCode statusMessage body,
     reply = SendResponse statusCode statusMessage body /\
     body <> VUndefined /\ body <> VNull).
Proof.
  destruct reply as [m | code msg body]; cbn [callSendAPI_callback].
  - repeat split; try (simpl; lia).
    + intros H. discriminate H.
    + intros (c & s & b & H & _). discriminate H.
  - assert (B : body = VUndefined \/ body = VNull \/ (body <> VUndefined /\ body <> VNull)).
    { destruct body; auto; right; right; split; discriminate. }
    destruct B as [-> | [-> | [Nu Nn]]].
    + destruct (code =? 200)%Z; (repeat split; try (simpl; lia);
        [intros H; discriminate H | intros (c & s & b & H & Hu & _); injection H as _ _ <-;
                                    now elim Hu]).
    + destruct (code =? 200)%Z; (repeat split; try (simpl; lia);
        [intros H; discriminate H | intros (c & s & b & H & _ & Hn); injection H as _ _ <-;
                                    now elim Hn]).
    + destruct (code =? 200)%Z.
      * rewrite !(get_field_not_nullish _ Nu Nn), !bind_lift_normal.
        destruct (truthy (field body "message_id")); repeat split; try (simpl; lia);
          intros _; exists code, msg, body; repeat split; assumption.
      * rewrite !(get_field_not_nullish _ Nu Nn), !bind_lift_normal.
        repeat split; try (simpl; lia);
          intros _; exists code, msg, body; repeat split; assumption.
Qed.
